(** * The Kubernetes driver of devpod: [pkg/driver/kubernetes/run.go]

    A shallow embedding of [RunDevContainer], [runContainer],
    [getVolumeMount] and [StartDevContainer], and the properties of the
    lifecycle they implement (first run versus restart, mount to sub-path
    translation, seeding of the volume, security context of the pod).

    The driver talks to the cluster through [kubectl]; here every such call
    is answered by a [Cluster], a deterministic handler over an arbitrary
    world state, and is recorded together with its answer in the list of
    events a run produces.  Helpers of the driver that live in other files
    of the repository are fields of [Collaborators]. *)

From Stdlib Require Import ZArith String Ascii List DecimalString.
From Stdlib Require DecimalPos DecimalZ.
From stdpp Require Import base strings list gmap sorting.

Local Open Scope string_scope.
Local Open Scope list_scope.

(** ** Go primitives *)

(** Go's [error] values as this file builds them: a fresh message
    ([fmt.Errorf] without [%w], or whatever a collaborator returned) or an
    error wrapped with some context ([errors.Wrap], [errors.Wrapf],
    [fmt.Errorf] with [%w]). *)
Inductive error : Type :=
| New (msg : string)
| Wrap (cause : error) (msg : string).

(** [err.Error()]: the context, a colon, then the cause. *)
Fixpoint Error (e : error) : string :=
  match e with
  | New msg => msg
  | Wrap cause msg => msg +:+ ": " +:+ Error cause
  end.

(** [strconv.Itoa]. *)
Definition Itoa (i : Z) : string := NilZero.string_of_int (Z.to_int i).

(** The decimal notation of an integer written out digit by digit, which is
    what the specification means by the decimal slot index: [Itoa_decimal]
    below shows that [Itoa] computes it. *)




Fixpoint inCutset (cutset : string) (c : ascii) : bool :=
  match cutset with
  | EmptyString => false
  | String c' rest => if Ascii.eqb c c' then true else inCutset rest c
  end.

(** [strings.TrimRight(s, cutset)]: [s] without its trailing characters that
    belong to [cutset]. *)
Fixpoint TrimRight (s cutset : string) : string :=
  match s with
  | EmptyString => EmptyString
  | String c rest =>
      match TrimRight rest cutset with
      | EmptyString => if inCutset cutset c then EmptyString else String c EmptyString
      | trimmed => String c trimmed
      end
  end.

(** ** Data model *)

(** Package [pkg/devcontainer/config]: the fields [run.go] reads, and the
    declared users, which it never reads. *)
Module config.

Record Mount : Type := {
  Type_ : string;
  Source : string;
  Target : string;
}.

Record DevContainerConfig : Type := {
  Origin : string;
}.

Record MergedDevContainerConfig : Type := {
  Mounts : list Mount;
  CapAdd : list string;
  ContainerEnv : gmap string string;
  Privileged : option bool;
  ContainerUser : string;
  RemoteUser : string;
}.

Record ImageDetails : Type := {
  Entrypoint : list string;
  Cmd : list string;
  User : string;
}.

End config.
Export config.

(** Package [k8s.io/api/core/v1], one module per struct so that the fields
    keep their names.  A pointer field is an [option]; a nil map or slice is
    the empty one. *)
Module VolumeMount.
Record t : Type := { Name : string; MountPath : string; SubPath : string }.
End VolumeMount.

Module EnvVar.
Record t : Type := { Name : string; Value : string }.
End EnvVar.

Module Capabilities.
Record t : Type := { Add : list string; Drop : list string }.
End Capabilities.

Module SecurityContext.
Record t : Type := {
  Capabilities : option Capabilities.t;
  Privileged : option bool;
  RunAsUser : option Z;
  RunAsGroup : option Z;
  RunAsNonRoot : option bool;
}.
End SecurityContext.

Module ResourceRequirements.
Record t : Type := {
  Limits : gmap string string;
  Requests : gmap string string;
}.
End ResourceRequirements.

Module Container.
Record t : Type := {
  Name : string;
  Image : string;
  Command : list string;
  Args : list string;
  Resources : ResourceRequirements.t;
  Env : list EnvVar.t;
  VolumeMounts : list VolumeMount.t;
  SecurityContext : option SecurityContext.t;
}.
End Container.

Module PersistentVolumeClaimVolumeSource.
Record t : Type := { ClaimName : string }.
End PersistentVolumeClaimVolumeSource.

Module Volume.
Record t : Type := {
  Name : string;
  PersistentVolumeClaim : option PersistentVolumeClaimVolumeSource.t;
}.
End Volume.

Module PodSpec.
Record t : Type := {
  ServiceAccountName : string;
  InitContainers : list Container.t;
  Containers : list Container.t;
  RestartPolicy : string;
  Volumes : list Volume.t;
  NodeSelector : gmap string string;
}.
End PodSpec.

Module Pod.
Record t : Type := {
  Kind : string;
  APIVersion : string;
  Name : string;
  Labels : gmap string string;
  Spec : PodSpec.t;
}.
End Pod.

Module PersistentVolumeClaim.
Record t : Type := {
  Name : string;
  Annotations : gmap string string;
}.
End PersistentVolumeClaim.

Definition DevContainerInfoAnnotation : string := "devpod.sh/info".

Definition DevPodLabels : gmap string string := {[ "devpod.sh/created" := "true" ]}.

(** The snapshot stored on the volume.  Its configuration pointers are
    taken to be non-nil, as [createPersistentVolumeClaim] receives them from
    [RunDevContainer]. *)
Record DevContainerInfo : Type := {
  ParsedConfig : DevContainerConfig;
  MergedConfig : MergedDevContainerConfig;
  ImageDetails_ : ImageDetails;
  ImageName : string;
  WorkspaceMount : string;
  Labels : list string;
}.

(** The part of [kubernetesDriver] that [run.go] reads; its logger and its
    [kubectl] runner are the effects of the monad below. *)
Record Options : Type := {
  CreateNamespace : string;
  ServiceAccount : string;
  NodeSelector : string;
  Resources : string;
}.

Record kubernetesDriver : Type := {
  namespace : string;
  config : Options;
}.

(** ** Effects: remote calls and log lines *)

Inductive Level : Type := Debug | Info | Warn.

(** A call to the cluster, with the arguments it was given and the answer
    it got.  [kubectl] is run by [runCommand] and [runCommandWithDir]; [out]
    is what it wrote to the buffer that is both its stdout and stderr. *)
Inductive Call : Type :=
| CRunCommand (args : list string) (stdin : option string)
    (out : string) (err : option error)
| CRunCommandWithDir (dir : string) (args : list string) (stdin : option string)
    (out : string) (err : option error)
| CGetDevContainerPvc (id : string)
    (pvc : option PersistentVolumeClaim.t) (info : option DevContainerInfo)
    (err : option error)
| CCreatePersistentVolumeClaim (id : string)
    (parsedConfig : DevContainerConfig) (mergedConfig : MergedDevContainerConfig)
    (imageName workspaceMount : string) (labels : list string)
    (imageDetails : ImageDetails) (err : option error)
| CCreateServiceAccount (id serviceAccount : string) (err : option error)
| CWaitPodRunning (id : string) (err : option error).

Inductive Event : Type :=
| Remote (c : Call)
| Logged (lvl : Level) (msg : string).

(** The cluster as the driver sees it: each remote method answers from the
    current world and moves it. *)
Record Cluster (W : Type) : Type := {
  k_runCommand :
    list string -> option string -> W -> string * option error * W;
  k_runCommandWithDir :
    string -> list string -> option string -> W -> string * option error * W;
  k_getDevContainerPvc :
    string -> W ->
    option PersistentVolumeClaim.t * option DevContainerInfo * option error * W;
  k_createPersistentVolumeClaim :
    string -> DevContainerConfig -> MergedDevContainerConfig -> string -> string ->
    list string -> ImageDetails -> W -> option error * W;
  k_createServiceAccount : string -> string -> W -> option error * W;
  k_waitPodRunning : string -> W -> option error * W;
}.
Arguments k_runCommand {W}.
Arguments k_runCommandWithDir {W}.
Arguments k_getDevContainerPvc {W}.
Arguments k_createPersistentVolumeClaim {W}.
Arguments k_createServiceAccount {W}.
Arguments k_waitPodRunning {W}.

(** Functions [run.go] calls that are defined elsewhere and touch neither
    the cluster nor the world: helpers of the driver, of the packages
    [config] and [docker], and of Go's library.  [rangeEnv] is the order in
    which this run of the program iterates over a map. *)
Record Collaborators : Type := {
  ParseMount : string -> Mount;
  Mount_String : Mount -> string;
  getID : kubernetesDriver -> list string -> string * option error;
  getInitContainer :
    kubernetesDriver -> MergedDevContainerConfig -> string ->
    list Container.t * option error;
  GetContainerEntrypointAndArgs :
    MergedDevContainerConfig -> ImageDetails -> string * list string;
  parseResources : string -> ResourceRequirements.t * list (Level * string);
  parseLabels : string -> gmap string string * option error;
  json_Marshal : Pod.t -> string * option error;
  filepath_Dir : string -> string;
  rangeEnv : gmap string string -> list (string * string);
}.

(** Package [pkg/config]: the type of the values of [ideOptions]. *)
Module config2.
Record OptionValue : Type := { Value : string; UserProvided : bool }.
End config2.

(** ** The monad of the driver

    A computation reads the world, answers, and leaves the new world and
    the events it produced, oldest first.  The [context.Context] every
    method threads through is not modelled: a cancelled call is a call the
    cluster answers with an error. *)
Definition M (W A : Type) : Type := W -> A * W * list Event.

Definition ret {W A : Type} (a : A) : M W A := fun w => (a, w, []).

Definition bind {W A B : Type} (m : M W A) (f : A -> M W B) : M W B :=
  fun w =>
    let '(a, w1, es1) := m w in
    let '(b, w2, es2) := f a w1 in
    (b, w2, es1 ++ es2).

Notation "'let*' x ':=' m 'in' k" := (bind m (fun x => k))
  (at level 10, x pattern, m at level 100, k at level 200).

Definition Logf {W : Type} (lvl : Level) (msg : string) : M W unit :=
  fun w => (tt, w, [Logged lvl msg]).

Fixpoint emit {W : Type} (lines : list (Level * string)) : M W unit :=
  match lines with
  | [] => ret tt
  | (lvl, msg) :: rest => let* _ := Logf lvl msg in emit rest
  end.

(** The result and the events of a computation started in world [w]. *)
Definition result {W A : Type} (m : M W A) (w : W) : A := (m w).1.1.
Definition events {W A : Type} (m : M W A) (w : W) : list Event := (m w).2.

(** The remote calls among some events, in order. *)
Definition remote_calls (es : list Event) : list Call :=
  omap (fun ev => match ev with Remote c => Some c | Logged _ _ => None end) es.

(** ** [getVolumeMount] *)

Definition getVolumeMount (idx : Z) (mount : Mount) : VolumeMount.t :=
  let subPath := Itoa idx in
  let subPath :=
    if String.eqb (Type_ mount) "volume" && negb (String.eqb (Source mount) "")
    then Source mount
    else subPath in
  {| VolumeMount.Name := "devpod";
     VolumeMount.MountPath := Target mount;
     VolumeMount.SubPath := "devpod/" +:+ subPath |}.

(** The pod manifest of [runContainer], a literal in the source. *)
Definition podManifest (id serviceAccount : string)
    (initContainer : list Container.t) (imageName entrypoint : string)
    (resources : ResourceRequirements.t) (args : list string)
    (envVars : list EnvVar.t) (volumeMounts : list VolumeMount.t)
    (capabilities : option Capabilities.t) (privileged : option bool) : Pod.t :=
  {| Pod.Kind := "Pod";
     Pod.APIVersion := "v1";
     Pod.Name := id;
     Pod.Labels := DevPodLabels;
     Pod.Spec :=
       {| PodSpec.ServiceAccountName := serviceAccount;
          PodSpec.InitContainers := initContainer;
          PodSpec.Containers :=
            [ {| Container.Name := "devpod";
                 Container.Image := imageName;
                 Container.Command := [entrypoint];
                 Container.Resources := resources;
                 Container.Args := args;
                 Container.Env := envVars;
                 Container.VolumeMounts := volumeMounts;
                 Container.SecurityContext :=
                   Some {| SecurityContext.Capabilities := capabilities;
                           SecurityContext.Privileged := privileged;
                           SecurityContext.RunAsUser := Some 0%Z;
                           SecurityContext.RunAsGroup := Some 0%Z;
                           SecurityContext.RunAsNonRoot := Some false |} |} ];
          PodSpec.RestartPolicy := "Never";
          PodSpec.Volumes :=
            [ {| Volume.Name := "devpod";
                 Volume.PersistentVolumeClaim :=
                   Some {| PersistentVolumeClaimVolumeSource.ClaimName := id |} |} ];
          PodSpec.NodeSelector := ∅ |} |}.

(** [pod.Spec.NodeSelector = selector]. *)
Definition setNodeSelector (pod : Pod.t) (selector : gmap string string) : Pod.t :=
  {| Pod.Kind := Pod.Kind pod;
     Pod.APIVersion := Pod.APIVersion pod;
     Pod.Name := Pod.Name pod;
     Pod.Labels := Pod.Labels pod;
     Pod.Spec :=
       {| PodSpec.ServiceAccountName := PodSpec.ServiceAccountName (Pod.Spec pod);
          PodSpec.InitContainers := PodSpec.InitContainers (Pod.Spec pod);
          PodSpec.Containers := PodSpec.Containers (Pod.Spec pod);
          PodSpec.RestartPolicy := PodSpec.RestartPolicy (Pod.Spec pod);
          PodSpec.Volumes := PodSpec.Volumes (Pod.Spec pod);
          PodSpec.NodeSelector := selector |} |}.

Section Driver.

Context {W : Type} (lib : Collaborators) (cl : Cluster W).

(** The remote methods of the driver: ask the cluster, record the call. *)
Definition runCommand (args : list string) (stdin : option string)
    : M W (string * option error) :=
  fun w =>
    let '(out, err, w') := k_runCommand cl args stdin w in
    ((out, err), w', [Remote (CRunCommand args stdin out err)]).

Definition runCommandWithDir (dir : string) (args : list string)
    (stdin : option string) : M W (string * option error) :=
  fun w =>
    let '(out, err, w') := k_runCommandWithDir cl dir args stdin w in
    ((out, err), w', [Remote (CRunCommandWithDir dir args stdin out err)]).

Definition getDevContainerPvc (id : string)
    : M W (option PersistentVolumeClaim.t * option DevContainerInfo * option error) :=
  fun w =>
    let '(pvc, info, err, w') := k_getDevContainerPvc cl id w in
    ((pvc, info, err), w', [Remote (CGetDevContainerPvc id pvc info err)]).

Definition createPersistentVolumeClaim (id : string)
    (parsedConfig : DevContainerConfig) (mergedConfig : MergedDevContainerConfig)
    (imageName workspaceMount : string) (labels : list string)
    (imageDetails : ImageDetails) : M W (option error) :=
  fun w =>
    let '(err, w') :=
      k_createPersistentVolumeClaim cl id parsedConfig mergedConfig imageName
        workspaceMount labels imageDetails w in
    (err, w',
     [Remote (CCreatePersistentVolumeClaim id parsedConfig mergedConfig imageName
                workspaceMount labels imageDetails err)]).

Definition createServiceAccount (id serviceAccount : string) : M W (option error) :=
  fun w =>
    let '(err, w') := k_createServiceAccount cl id serviceAccount w in
    (err, w', [Remote (CCreateServiceAccount id serviceAccount err)]).

Definition waitPodRunning (id : string) : M W (option error) :=
  fun w =>
    let '(err, w') := k_waitPodRunning cl id w in
    (err, w', [Remote (CWaitPodRunning id err)]).

(** The loop over [mergedConfig.Mounts] of [runContainer]; [idx] is the
    index of the head of [mounts], which never overflows since a slice has
    at most [MaxInt] elements. *)
Fixpoint mountLoop (idx : Z) (mounts : list Mount)
    (copyFromLocal : list Mount) (volumeMounts : list VolumeMount.t)
    : M W (list Mount * list VolumeMount.t) :=
  match mounts with
  | [] => ret (copyFromLocal, volumeMounts)
  | mount :: rest =>
      let volumeMount := getVolumeMount (idx + 1)%Z mount in
      if String.eqb (Type_ mount) "bind" then
        mountLoop (idx + 1)%Z rest (copyFromLocal ++ [mount]) (volumeMounts ++ [volumeMount])
      else if String.eqb (Type_ mount) "volume" then
        mountLoop (idx + 1)%Z rest copyFromLocal (volumeMounts ++ [volumeMount])
      else
        let* _ := Logf Warn ("Unsupported mount type '" +:+ Type_ mount +:+
                             "' in mount '" +:+ Mount_String lib mount +:+
                             "', will skip") in
        mountLoop (idx + 1)%Z rest copyFromLocal volumeMounts
  end.

(** The loop over [copyFromLocal] of [runContainer]. *)
Fixpoint copyLoop (id : string) (parsedConfig : DevContainerConfig)
    (copyFromLocal : list Mount) : M W (option error) :=
  match copyFromLocal with
  | [] => ret None
  | copyMount :: rest =>
      let* _ := Logf Info ("Copy " +:+ Source copyMount +:+
                           " into DevContainer " +:+ Target copyMount) in
      let* (_, err) :=
        runCommandWithDir (filepath_Dir lib (Origin parsedConfig))
          ["cp"; "-c"; "devpod";
           TrimRight (Source copyMount) "/" +:+ "/.";
           id +:+ ":" +:+ TrimRight (Target copyMount) "/"]
          None in
      if err is Some e then ret (Some (Wrap e "copy to devcontainer"))
      else copyLoop id parsedConfig rest
  end.

Definition runContainer (k : kubernetesDriver) (id : string)
    (parsedConfig : DevContainerConfig) (mergedConfig : MergedDevContainerConfig)
    (imageName workspaceMount : string) (imageDetails : ImageDetails)
    (initialize : bool) : M W (option error) :=
  (* get workspace mount *)
  let mount := ParseMount lib workspaceMount in
  if String.eqb (Target mount) "" then
    ret (Some (New "workspace mount target is empty"))
  else
  (* get init container *)
  let '(initContainer, err) :=
    if initialize then getInitContainer lib k mergedConfig imageName
    else ([], None) in
  if err is Some e then ret (Some (Wrap e "build init container")) else
  (* loop over volume mounts *)
  let* (copyFromLocal, volumeMounts) :=
    mountLoop 0%Z (Mounts mergedConfig) [mount] [getVolumeMount 0%Z mount] in
  (* capabilities *)
  let capabilities :=
    if bool_decide (0 < length (CapAdd mergedConfig)) then
      Some {| Capabilities.Add :=
                foldl (fun add cap => add ++ [cap]) [] (CapAdd mergedConfig);
              Capabilities.Drop := [] |}
    else None in
  (* env vars *)
  let envVars :=
    foldl (fun envVars kv =>
             envVars ++ [ {| EnvVar.Name := kv.1; EnvVar.Value := kv.2 |} ])
      [] (rangeEnv lib (ContainerEnv mergedConfig)) in
  (* service account *)
  let* (serviceAccount, err) :=
    if negb (String.eqb (ServiceAccount (config k)) "") then
      let serviceAccount := ServiceAccount (config k) in
      let* err := createServiceAccount id serviceAccount in
      ret (serviceAccount, err)
    else ret ("", None) in
  if err is Some e then ret (Some (Wrap e "create service account")) else
  (* create the pod manifest *)
  let '(entrypoint, args) := GetContainerEntrypointAndArgs lib mergedConfig imageDetails in
  let '(resources, lines) := parseResources lib (Resources (config k)) in
  let* _ := emit lines in
  let pod :=
    podManifest id serviceAccount initContainer imageName entrypoint resources
      args envVars volumeMounts capabilities (config.Privileged mergedConfig) in
  (* parse node selector *)
  let '(pod, err) :=
    if negb (String.eqb (NodeSelector (config k)) "") then
      let '(selector, err) := parseLabels lib (NodeSelector (config k)) in
      (setNodeSelector pod selector, err)
    else (pod, None) in
  if err is Some e then ret (Some (Wrap e "parsing node selector")) else
  (* marshal the pod *)
  let '(podRaw, err) := json_Marshal lib pod in
  if err is Some e then ret (Some e) else
  (* create the pod *)
  let* _ := Logf Info ("Create Pod '" +:+ id +:+ "'") in
  let* (buf, err) := runCommand ["create"; "-f"; "-"] (Some podRaw) in
  if err is Some e then ret (Some (Wrap e ("create pod: " +:+ buf))) else
  (* wait for pod running *)
  let* _ := Logf Info ("Waiting for DevContainer Pod '" +:+ id +:+ "' to come up...") in
  let* err := waitPodRunning id in
  if err is Some e then ret (Some e) else
  (* copy local to pod *)
  if initialize then copyLoop id parsedConfig copyFromLocal
  else ret None.

Definition RunDevContainer (k : kubernetesDriver)
    (parsedConfig : DevContainerConfig) (mergedConfig : MergedDevContainerConfig)
    (imageName workspaceMount : string) (labels : list string)
    (ide : string) (ideOptions : gmap string config2.OptionValue)
    (imageDetails : ImageDetails) : M W (option error) :=
  let '(id, err) := getID lib k labels in
  if err is Some e then ret (Some e) else
  (* namespace *)
  let* _ :=
    if negb (String.eqb (namespace k) "")
       && String.eqb (CreateNamespace (config k)) "true" then
      let* _ := Logf Debug ("Create namespace '" +:+ namespace k +:+ "'") in
      let* (_, err) := runCommand ["create"; "ns"; namespace k] None in
      if err is Some e then Logf Debug ("Error creating namespace: " +:+ Error e)
      else ret tt
    else ret tt in
  (* create dev container *)
  let createDevContainer (initialize : bool) : M W (option error) :=
    let* err :=
      runContainer k id parsedConfig mergedConfig imageName workspaceMount
        imageDetails initialize in
    if err is Some e then ret (Some e) else ret None in
  (* check if persistent volume claim already exists *)
  let initialize := false in
  let* (pvc, _, err) := getDevContainerPvc id in
  if err is Some e then ret (Some e)
  else if pvc is None then
    (* create persistent volume claim *)
    let* err :=
      createPersistentVolumeClaim id parsedConfig mergedConfig imageName
        workspaceMount labels imageDetails in
    if err is Some e then ret (Some e) else
    let initialize := true in
    createDevContainer initialize
  else createDevContainer initialize.

Definition StartDevContainer (k : kubernetesDriver) (id : string)
    (labels : list string) : M W (option error) :=
  let* (_, containerInfo, err) := getDevContainerPvc id in
  if err is Some e then ret (Some e)
  else if containerInfo is Some containerInfo then
    runContainer k id (ParsedConfig containerInfo) (MergedConfig containerInfo)
      (ImageName containerInfo) (WorkspaceMount containerInfo)
      (ImageDetails_ containerInfo) false
  else ret (Some (New ("persistent volume '" +:+ id +:+ "' not found"))).

End Driver.

(** ** Classes of remote calls *)

(** The [kubectl] verb of a call that runs a command. *)
Definition verb (c : Call) : option string :=
  match c with
  | CRunCommand args _ _ _ | CRunCommandWithDir _ args _ _ _ => head args
  | _ => None
  end.

(** [kubectl cp ...]: a copy into the pod. *)
Definition isCopy (c : Call) : bool :=
  bool_decide (verb c = Some "cp").

(** [kubectl delete ...]: the only way this driver could remove a pod or a
    volume. *)
Definition isDelete (c : Call) : bool :=
  bool_decide (verb c = Some "delete").

(** [kubectl create -f -]: the submission of a manifest. *)
Definition isPodSubmission (c : Call) : bool :=
  match c with
  | CRunCommand args _ _ _ => bool_decide (args = ["create"; "-f"; "-"])
  | _ => false
  end.

(** [kubectl create ns ...]. *)
Definition isNamespaceCreation (c : Call) : bool :=
  match c with
  | CRunCommand args _ _ _ => bool_decide (take 2 args = ["create"; "ns"])
  | _ => false
  end.

Definition isVolumeLookup (c : Call) : bool :=
  match c with CGetDevContainerPvc _ _ _ _ => true | _ => false end.

Definition isVolumeCreation (c : Call) : bool :=
  match c with CCreatePersistentVolumeClaim _ _ _ _ _ _ _ _ => true | _ => false end.

Definition isServiceAccountCreation (c : Call) : bool :=
  match c with CCreateServiceAccount _ _ _ => true | _ => false end.

Definition isWait (c : Call) : bool :=
  match c with CWaitPodRunning _ _ => true | _ => false end.

(** The error the cluster answered a call with, if any. *)
Definition callError (c : Call) : option error :=
  match c with
  | CRunCommand _ _ _ err
  | CRunCommandWithDir _ _ _ _ err
  | CGetDevContainerPvc _ _ _ err
  | CCreatePersistentVolumeClaim _ _ _ _ _ _ _ err
  | CCreateServiceAccount _ _ err
  | CWaitPodRunning _ err => err
  end.

Definition succeeded (c : Call) : bool :=
  if callError c is Some _ then false else true.

(** The copy [copyLoop] issues for a mount, as answered with [out] and
    [err]. *)
Definition copyCall (lib : Collaborators) (id : string)
    (parsedConfig : DevContainerConfig) (copyMount : Mount)
    (out : string) (err : option error) : Call :=
  CRunCommandWithDir (filepath_Dir lib (Origin parsedConfig))
    ["cp"; "-c"; "devpod";
     TrimRight (Source copyMount) "/" +:+ "/.";
     id +:+ ":" +:+ TrimRight (Target copyMount) "/"]
    None out err.

(** The line [copyLoop] logs before it copies a mount. *)
Definition copyLine (copyMount : Mount) : Event :=
  Logged Info ("Copy " +:+ Source copyMount +:+
               " into DevContainer " +:+ Target copyMount).

(** The mounts [mountLoop] supports. *)
Definition isBind (mount : Mount) : bool := String.eqb (Type_ mount) "bind".
Definition isVolume (mount : Mount) : bool := String.eqb (Type_ mount) "volume".
Definition supported (mount : Mount) : bool := isBind mount || isVolume mount.

(** The volume mounts of the declared mounts from position [idx] on: a
    supported mount at position [i] is mounted as slot [i + 1], any other is
    left out. *)
Fixpoint declaredVolumeMounts (idx : Z) (mounts : list Mount) : list VolumeMount.t :=
  match mounts with
  | [] => []
  | mount :: rest =>
      (if supported mount then [getVolumeMount (idx + 1)%Z mount] else [])
      ++ declaredVolumeMounts (idx + 1)%Z rest
  end.

(** The warning for an unsupported mount. *)
Definition unsupportedWarning (lib : Collaborators) (mount : Mount) : Event :=
  Logged Warn ("Unsupported mount type '" +:+ Type_ mount +:+
               "' in mount '" +:+ Mount_String lib mount +:+ "', will skip").

(** [raw] is what [json.Marshal] made of [pod]. *)
Definition marshalled (lib : Collaborators) (pod : Pod.t) (raw : string) : Prop :=
  json_Marshal lib pod = (raw, None).

(** ** A simulated cluster and stand-ins for the collaborators

    Used to run the driver on concrete inputs; the properties below hold for
    every cluster and all collaborators.  The cluster keeps the snapshots of
    the volumes it holds and the manifests it was given, and refuses the
    copies into the remote paths listed in [readOnly].  The collaborators
    are stand-ins for functions that are not part of [run.go]: mounts are
    written [type=...,source=...,target=...] as in a devcontainer
    configuration, the identity is [devpod-] followed by the first label. *)
Module Sim.

Record World : Type := {
  volumes : gmap string DevContainerInfo;
  pods : list string;
  readOnly : list string;
}.

Definition addVolume (id : string) (info : DevContainerInfo) (w : World) : World :=
  {| volumes := <[id := info]> (volumes w); pods := pods w; readOnly := readOnly w |}.

Definition addPod (raw : string) (w : World) : World :=
  {| volumes := volumes w; pods := pods w ++ [raw]; readOnly := readOnly w |}.

Definition cluster : Cluster World :=
  {| k_runCommand args stdin w :=
       if bool_decide (args = ["create"; "-f"; "-"]) then
         ("", None, addPod (default "" stdin) w)
       else ("", None, w);
     k_runCommandWithDir dir args stdin w :=
       match args with
       | [_; _; _; _; remote] =>
           if bool_decide (remote ∈ readOnly w) then
             ("read-only file system", Some (New "exit status 1"), w)
           else ("", None, w)
       | _ => ("", None, w)
       end;
     k_getDevContainerPvc id w :=
       match volumes w !! id with
       | Some info =>
           (Some {| PersistentVolumeClaim.Name := id;
                    PersistentVolumeClaim.Annotations := ∅ |},
            Some info, None, w)
       | None => (None, None, None, w)
       end;
     k_createPersistentVolumeClaim id parsedConfig mergedConfig imageName
         workspaceMount labels imageDetails w :=
       (None,
        addVolume id
          {| ParsedConfig := parsedConfig; MergedConfig := mergedConfig;
             ImageDetails_ := imageDetails; ImageName := imageName;
             WorkspaceMount := workspaceMount; Labels := labels |} w);
     k_createServiceAccount id serviceAccount w := (None, w);
     k_waitPodRunning id w := (None, w) |}.

(** [strings.Split(s, sep)] for a separator of one character. *)
Fixpoint split (sep : ascii) (s : string) : list string :=
  match s with
  | EmptyString => [EmptyString]
  | String c rest =>
      let parts := split sep rest in
      if Ascii.eqb c sep then EmptyString :: parts
      else match parts with
           | part :: parts => String c part :: parts
           | [] => [String c EmptyString]
           end
  end.

(** Stand-in for [config.ParseMount]: a mount string is a comma-separated
    list of [key=value]; a key that is missing leaves its field empty. *)
Definition parseMount (str : string) : Mount :=
  foldl (fun mount part =>
           match split "=" part with
           | key :: value :: _ =>
               if bool_decide (key ∈ ["src"; "source"]) then
                 {| Type_ := Type_ mount; Source := value; Target := Target mount |}
               else if bool_decide (key ∈ ["dst"; "destination"; "target"]) then
                 {| Type_ := Type_ mount; Source := Source mount; Target := value |}
               else if bool_decide (key = "type") then
                 {| Type_ := value; Source := Source mount; Target := Target mount |}
               else mount
           | _ => mount
           end)
    {| Type_ := ""; Source := ""; Target := "" |} (split "," str).

Definition lib : Collaborators :=
  {| ParseMount := parseMount;
     Mount_String mount :=
       "type=" +:+ Type_ mount +:+ ",src=" +:+ Source mount +:+ ",dst=" +:+ Target mount;
     getID k labels :=
       match labels with
       | label :: _ => ("devpod-" +:+ label, None)
       | [] => ("", Some (New "no id label"))
       end;
     getInitContainer k mergedConfig imageName := ([], None);
     GetContainerEntrypointAndArgs mergedConfig imageDetails :=
       ("/bin/sh", ["-c"; "sleep infinity"]);
     parseResources str :=
       ({| ResourceRequirements.Limits := ∅; ResourceRequirements.Requests := ∅ |}, []);
     parseLabels str :=
       match split "=" str with
       | [key; value] => ({[ key := value ]}, None)
       | _ => (∅, Some (New "invalid label"))
       end;
     json_Marshal pod := ("{Pod " +:+ Pod.Name pod +:+ "}", None);
     filepath_Dir path := ".";
     rangeEnv env := map_to_list env |}.

Definition emptyWorld : World := {| volumes := ∅; pods := []; readOnly := [] |}.

Definition driver : kubernetesDriver :=
  {| namespace := "";
     config := {| CreateNamespace := ""; ServiceAccount := "";
                  NodeSelector := ""; Resources := "" |} |}.

Definition parsed : DevContainerConfig := {| Origin := "/home/me/project/.devcontainer.json" |}.

Definition image : ImageDetails := {| Entrypoint := []; Cmd := []; User := "root" |}.

Definition bindData : Mount := {| Type_ := "bind"; Source := "/data"; Target := "/mnt/data" |}.
Definition volumeCache : Mount := {| Type_ := "volume"; Source := "cache"; Target := "/cache" |}.
Definition tmpfsScratch : Mount := {| Type_ := "tmpfs"; Source := ""; Target := "/scratch" |}.

Definition merged (mounts : list Mount) : MergedDevContainerConfig :=
  {| Mounts := mounts; CapAdd := ["SYS_PTRACE"];
     ContainerEnv := {[ "EDITOR" := "vi" ]}; config.Privileged := Some false;
     ContainerUser := "vscode"; RemoteUser := "vscode" |}.

Definition workspace : string := "type=bind,source=/home/me/project,target=/ws".

(** A workspace mount that names no target. *)
Definition noTarget : string := "type=bind,source=/home/me/project".

Definition bindLogs : Mount := {| Type_ := "bind"; Source := "/logs/"; Target := "/var/log/" |}.

Definition mounts : list Mount := [bindData; tmpfsScratch; volumeCache; bindLogs].

(** A world in which the volume of [devpod-ws1] exists. *)
Definition initialized : World :=
  addVolume "devpod-ws1"
    {| ParsedConfig := parsed; MergedConfig := merged mounts;
       ImageDetails_ := image; ImageName := "img";
       WorkspaceMount := workspace; Labels := ["ws1"] |}
    emptyWorld.

(** A world in which the volume of the workspace [ws1] exists under
    another name than its identity. *)
Definition renamed : World :=
  addVolume "some-other-id"
    {| ParsedConfig := parsed; MergedConfig := merged mounts;
       ImageDetails_ := image; ImageName := "img";
       WorkspaceMount := workspace; Labels := ["ws1"] |}
    emptyWorld.

(** A world in which [/mnt/data] of the pod cannot be written. *)
Definition broken : World :=
  {| volumes := ∅; pods := []; readOnly := ["devpod-ws1:/mnt/data"] |}.

(** [RunDevContainer] for the workspace [ws1]. *)
Definition run (workspaceMount : string) : M World (option error) :=
  RunDevContainer lib cluster driver parsed (merged mounts) "img" workspaceMount
    ["ws1"] "vscode" ∅ image.

(** [runContainer] for the workspace [ws1]. *)
Definition container (workspaceMount : string) (initialize : bool)
    : M World (option error) :=
  runContainer lib cluster driver "devpod-ws1" parsed (merged mounts) "img"
    workspaceMount image initialize.

End Sim.

(** ** What a run of [runContainer] consists of

    The values [runContainer] computes from its inputs alone, and the
    shapes its result and events can take, one per way out of the function.
    [runContainer_run] below shows that every run has one of these shapes. *)
Section Runs.

Context {W : Type} (lib : Collaborators) (cl : Cluster W).
Context (k : kubernetesDriver) (id : string)
  (parsedConfig : DevContainerConfig) (mergedConfig : MergedDevContainerConfig)
  (imageName workspaceMount : string) (imageDetails : ImageDetails)
  (initialize : bool).

(** The mounts to seed: the workspace mount, then the bind mounts. *)
Definition copyList : list Mount :=
  ParseMount lib workspaceMount :: List.filter isBind (Mounts mergedConfig).

(** The volume mounts of the main container. *)
Definition volumeMountList : list VolumeMount.t :=
  getVolumeMount 0%Z (ParseMount lib workspaceMount)
  :: declaredVolumeMounts 0%Z (Mounts mergedConfig).

(** The warnings of the loop over the mounts. *)
Definition mountWarnings : list Event :=
  map (unsupportedWarning lib)
    (List.filter (fun mount => negb (supported mount)) (Mounts mergedConfig)).

(** What [parseResources] logged. *)
Definition resourceLines : list Event :=
  map (fun line => Logged line.1 line.2)
    (parseResources lib (Resources (config k))).2.

(** The call that provisions the service account, when one is configured. *)
Definition serviceAccountEvents (err : option error) : list Event :=
  if String.eqb (ServiceAccount (config k)) "" then []
  else [Remote (CCreateServiceAccount id (ServiceAccount (config k)) err)].

(** The security context of the main container. *)
Definition securityContext : SecurityContext.t :=
  {| SecurityContext.Capabilities :=
       if CapAdd mergedConfig is [] then None
       else Some {| Capabilities.Add := CapAdd mergedConfig; Capabilities.Drop := [] |};
     SecurityContext.Privileged := config.Privileged mergedConfig;
     SecurityContext.RunAsUser := Some 0%Z;
     SecurityContext.RunAsGroup := Some 0%Z;
     SecurityContext.RunAsNonRoot := Some false |}.

(** The main container. *)
Definition devpodContainer : Container.t :=
  {| Container.Name := "devpod";
     Container.Image := imageName;
     Container.Command := [(GetContainerEntrypointAndArgs lib mergedConfig imageDetails).1];
     Container.Resources := (parseResources lib (Resources (config k))).1;
     Container.Args := (GetContainerEntrypointAndArgs lib mergedConfig imageDetails).2;
     Container.Env :=
       map (fun kv => {| EnvVar.Name := kv.1; EnvVar.Value := kv.2 |})
         (rangeEnv lib (ContainerEnv mergedConfig));
     Container.VolumeMounts := volumeMountList;
     Container.SecurityContext := Some securityContext |}.

(** The pod that is marshalled and submitted. *)
Definition builtPod : Pod.t :=
  {| Pod.Kind := "Pod";
     Pod.APIVersion := "v1";
     Pod.Name := id;
     Pod.Labels := DevPodLabels;
     Pod.Spec :=
       {| PodSpec.ServiceAccountName := ServiceAccount (config k);
          PodSpec.InitContainers :=
            if initialize then (getInitContainer lib k mergedConfig imageName).1 else [];
          PodSpec.Containers := [devpodContainer];
          PodSpec.RestartPolicy := "Never";
          PodSpec.Volumes :=
            [ {| Volume.Name := "devpod";
                 Volume.PersistentVolumeClaim :=
                   Some {| PersistentVolumeClaimVolumeSource.ClaimName := id |} |} ];
          PodSpec.NodeSelector :=
            if String.eqb (NodeSelector (config k)) "" then ∅
            else (parseLabels lib (NodeSelector (config k))).1 |} |}.

(** The configuration lets the run go beyond its local checks: the
    workspace has a target and the init container, when needed, is built. *)
Definition configured : Prop :=
  Target (ParseMount lib workspaceMount) <> ""
  /\ (initialize = true -> (getInitContainer lib k mergedConfig imageName).2 = None).

(** The node selector, when there is one, parses. *)
Definition placed : Prop :=
  NodeSelector (config k) <> "" ->
  (parseLabels lib (NodeSelector (config k))).2 = None.

(** The events up to the submission of the manifest [raw], answered with
    [out] and [err]. *)
Definition submissionEvents (raw out : string) (err : option error) : list Event :=
  mountWarnings ++ serviceAccountEvents None ++ resourceLines
  ++ [Logged Info ("Create Pod '" +:+ id +:+ "'");
      Remote (CRunCommand ["create"; "-f"; "-"] (Some raw) out err)].

(** The events of the wait for the pod, answered with [err]. *)
Definition waitEvents (err : option error) : list Event :=
  [Logged Info ("Waiting for DevContainer Pod '" +:+ id +:+ "' to come up...");
   Remote (CWaitPodRunning id err)].

(** [ContainerRun w r w' es]: started in world [w], [runContainer] may
    return [r], leave the world [w'] and produce the events [es]. *)
Inductive ContainerRun (w : W) : option error -> W -> list Event -> Prop :=
| RunRejected :
    Target (ParseMount lib workspaceMount) = "" ->
    ContainerRun w (Some (New "workspace mount target is empty")) w []
| RunNoInitContainer e :
    Target (ParseMount lib workspaceMount) <> "" ->
    initialize = true ->
    (getInitContainer lib k mergedConfig imageName).2 = Some e ->
    ContainerRun w (Some (Wrap e "build init container")) w []
| RunNoServiceAccount e w1 :
    configured ->
    ServiceAccount (config k) <> "" ->
    ContainerRun w (Some (Wrap e "create service account")) w1
      (mountWarnings ++ serviceAccountEvents (Some e))
| RunNotPlaced e w1 :
    configured ->
    NodeSelector (config k) <> "" ->
    (parseLabels lib (NodeSelector (config k))).2 = Some e ->
    ContainerRun w (Some (Wrap e "parsing node selector")) w1
      (mountWarnings ++ serviceAccountEvents None ++ resourceLines)
| RunNotMarshalled e w1 :
    configured -> placed ->
    (json_Marshal lib builtPod).2 = Some e ->
    ContainerRun w (Some e) w1
      (mountWarnings ++ serviceAccountEvents None ++ resourceLines)
| RunNotSubmitted raw out e w1 :
    configured -> placed ->
    json_Marshal lib builtPod = (raw, None) ->
    ContainerRun w (Some (Wrap e ("create pod: " +:+ out))) w1
      (submissionEvents raw out (Some e))
| RunNotUp raw out e w1 :
    configured -> placed ->
    json_Marshal lib builtPod = (raw, None) ->
    ContainerRun w (Some e) w1
      (submissionEvents raw out None ++ waitEvents (Some e))
| RunRestarted raw out w1 :
    configured -> placed ->
    json_Marshal lib builtPod = (raw, None) ->
    initialize = false ->
    ContainerRun w None w1
      (submissionEvents raw out None ++ waitEvents None)
| RunSeeded raw out w1 r w' seed :
    configured -> placed ->
    json_Marshal lib builtPod = (raw, None) ->
    initialize = true ->
    copyLoop lib cl id parsedConfig copyList w1 = (r, w', seed) ->
    ContainerRun w r w'
      (submissionEvents raw out None ++ waitEvents None ++ seed).

(** The remote calls [runContainer] can make: the service account, the
    submission of [builtPod], the wait, and, when initializing, the copy
    of a mount of [copyList]. *)
Definition containerCall (c : Call) : Prop :=
  (exists err, c = CCreateServiceAccount id (ServiceAccount (config k)) err)
  \/ (exists raw out err,
        c = CRunCommand ["create"; "-f"; "-"] (Some raw) out err
        /\ json_Marshal lib builtPod = (raw, None))
  \/ (exists err, c = CWaitPodRunning id err)
  \/ (initialize = true
      /\ exists copyMount out err,
           copyMount ∈ copyList /\ c = copyCall lib id parsedConfig copyMount out err).

End Runs.

(** ** What a run of [RunDevContainer] consists of *)
Section DevRuns.

Context {W : Type} (lib : Collaborators) (cl : Cluster W).
Context (k : kubernetesDriver)
  (parsedConfig : DevContainerConfig) (mergedConfig : MergedDevContainerConfig)
  (imageName workspaceMount : string) (labels : list string)
  (imageDetails : ImageDetails).

(** The events of the namespace step: nothing when no namespace is to be
    created, else the call as answered, and a line when it failed. *)
Definition namespaceEvents (answer : option (string * option error)) : list Event :=
  match answer with
  | None => []
  | Some (out, err) =>
      [Logged Debug ("Create namespace '" +:+ namespace k +:+ "'");
       Remote (CRunCommand ["create"; "ns"; namespace k] None out err)]
      ++ (if err is Some e
          then [Logged Debug ("Error creating namespace: " +:+ Error e)]
          else [])
  end.

(** The namespace is created exactly when the driver has one and is
    configured to create it. *)
Definition namespaceStep (answer : option (string * option error)) : Prop :=
  is_Some answer <->
  namespace k <> "" /\ CreateNamespace (config k) = "true".

(** [DevContainerRun w r w' es]: started in world [w], [RunDevContainer]
    may return [r], leave the world [w'] and produce the events [es]. *)
Inductive DevContainerRun (w : W) : option error -> W -> list Event -> Prop :=
| DevNoIdentity e :
    (getID lib k labels).2 = Some e ->
    DevContainerRun w (Some e) w []
| DevLookupFailed ns pvc info e w1 :
    (getID lib k labels).2 = None -> namespaceStep ns ->
    DevContainerRun w (Some e) w1
      (namespaceEvents ns
       ++ [Remote (CGetDevContainerPvc (getID lib k labels).1 pvc info (Some e))])
| DevNotCreated ns info e w1 :
    (getID lib k labels).2 = None -> namespaceStep ns ->
    DevContainerRun w (Some e) w1
      (namespaceEvents ns
       ++ [Remote (CGetDevContainerPvc (getID lib k labels).1 None info None);
           Remote (CCreatePersistentVolumeClaim (getID lib k labels).1 parsedConfig
                     mergedConfig imageName workspaceMount labels imageDetails
                     (Some e))])
| DevFirstRun ns info w1 r w' es :
    (getID lib k labels).2 = None -> namespaceStep ns ->
    runContainer lib cl k (getID lib k labels).1 parsedConfig mergedConfig
      imageName workspaceMount imageDetails true w1 = (r, w', es) ->
    DevContainerRun w r w'
      (namespaceEvents ns
       ++ [Remote (CGetDevContainerPvc (getID lib k labels).1 None info None);
           Remote (CCreatePersistentVolumeClaim (getID lib k labels).1 parsedConfig
                     mergedConfig imageName workspaceMount labels imageDetails
                     None)]
       ++ es)
| DevRestart ns pvc info w1 r w' es :
    (getID lib k labels).2 = None -> namespaceStep ns ->
    runContainer lib cl k (getID lib k labels).1 parsedConfig mergedConfig
      imageName workspaceMount imageDetails false w1 = (r, w', es) ->
    DevContainerRun w r w'
      (namespaceEvents ns
       ++ [Remote (CGetDevContainerPvc (getID lib k labels).1 (Some pvc) info None)]
       ++ es).

(** The remote calls [RunDevContainer] can make: the creation of the
    namespace, the lookup and the creation of the volume, and the calls of
    [runContainer]. *)
Definition devContainerCall (c : Call) : Prop :=
  (exists out err, c = CRunCommand ["create"; "ns"; namespace k] None out err)
  \/ (exists pvc info err, c = CGetDevContainerPvc (getID lib k labels).1 pvc info err)
  \/ (exists err,
        c = CCreatePersistentVolumeClaim (getID lib k labels).1 parsedConfig
              mergedConfig imageName workspaceMount labels imageDetails err)
  \/ (exists initialize,
        containerCall lib k (getID lib k labels).1 parsedConfig mergedConfig
          imageName workspaceMount imageDetails initialize c).

End DevRuns.

(** ** A cluster that is down

    Every call is refused; with [Sim.lib] for the collaborators and a driver
    that has a namespace to create and a service account. *)
Module Outage.

Definition refused : error := New "connection refused".

Definition cluster : Cluster unit :=
  {| k_runCommand args stdin w := ("Unable to connect to the server", Some refused, w);
     k_runCommandWithDir dir args stdin w :=
       ("Unable to connect to the server", Some refused, w);
     k_getDevContainerPvc id w := (None, None, Some refused, w);
     k_createPersistentVolumeClaim id parsedConfig mergedConfig imageName
         workspaceMount labels imageDetails w := (Some refused, w);
     k_createServiceAccount id serviceAccount w := (Some refused, w);
     k_waitPodRunning id w := (Some refused, w) |}.

Definition driver : kubernetesDriver :=
  {| namespace := "dev";
     config := {| CreateNamespace := "true"; ServiceAccount := "builder";
                  NodeSelector := "disk=ssd"; Resources := "" |} |}.

(** [RunDevContainer] for the workspace [ws1] on the cluster that is down. *)
Definition run : M unit (option error) :=
  RunDevContainer Sim.lib cluster driver Sim.parsed (Sim.merged Sim.mounts) "img"
    Sim.workspace ["ws1"] "vscode" ∅ Sim.image.

(** [runContainer] with the service account and the node selector of
    [driver], on the simulated cluster. *)
Definition container (initialize : bool) : M Sim.World (option error) :=
  runContainer Sim.lib Sim.cluster driver "devpod-ws1" Sim.parsed
    (Sim.merged Sim.mounts) "img" Sim.workspace Sim.image initialize.

End Outage.

(** ** Order and failure of remote calls *)

(** The step of the lifecycle a remote call belongs to. *)
Definition stage (c : Call) : nat :=
  if isNamespaceCreation c then 0
  else if isVolumeLookup c then 1
  else if isVolumeCreation c then 2
  else if isServiceAccountCreation c then 3
  else if isPodSubmission c then 4
  else if isWait c then 5
  else if isCopy c then 6
  else 7.

(** [c1] may come before [c2] in a run: it belongs to an earlier step, or
    both are copies. *)
Definition precedes (c1 c2 : Call) : Prop :=
  stage c1 < stage c2 \/ (isCopy c1 = true /\ isCopy c2 = true).

(** The error a run returns when its call [c] failed with [e]: [e] itself
    for the volume and the wait, [e] with the context of the operation for
    the service account, the pod and a copy. *)
Definition failureOf (c : Call) (e : error) : error :=
  match c with
  | CCreateServiceAccount _ _ _ => Wrap e "create service account"
  | CRunCommand _ _ out _ => Wrap e ("create pod: " +:+ out)
  | CRunCommandWithDir _ _ _ _ _ => Wrap e "copy to devcontainer"
  | _ => e
  end.

(** [n] path separators. *)
Fixpoint slashes (n : nat) : string :=
  match n with
  | O => EmptyString
  | S n => String "/" (slashes n)
  end.


(** * Properties *)

(** ** Events and loops *)

Lemma remote_calls_app es1 es2 :
  remote_calls (es1 ++ es2) = remote_calls es1 ++ remote_calls es2.
Proof. apply omap_app. Qed.

Lemma foldl_snoc {A B : Type} (f : A -> B) (l : list A) : forall acc,
  foldl (fun acc x => acc ++ [f x]) acc l = acc ++ map f l.
Proof.
  induction l as [|x l IH]; intros acc; simpl.
  - by rewrite app_nil_r.
  - by rewrite IH, <- app_assoc.
Qed.

(** ** Decimal notation

    [strconv.Itoa] writes an integer in base ten.  The numerals of the
    library are read least significant digit first by [to_lu]; one more
    decimal place puts one more digit in front. *)








Section Properties.

Context {W : Type} (lib : Collaborators) (cl : Cluster W).

Lemma mountLoop_eq mounts : forall idx copyFromLocal volumeMounts (w : W),
  mountLoop lib idx mounts copyFromLocal volumeMounts w =
    ((copyFromLocal ++ List.filter isBind mounts,
      volumeMounts ++ declaredVolumeMounts idx mounts),
     w,
     map (unsupportedWarning lib) (List.filter (fun m => negb (supported m)) mounts)).
Proof.
  induction mounts as [|mount rest IH]; intros idx cfl vms w; simpl.
  - unfold ret. by rewrite ?app_nil_r.
  - unfold supported, isBind, isVolume.
    destruct (String.eqb (Type_ mount) "bind") eqn:Hb; simpl.
    + rewrite IH. by rewrite <- !app_assoc.
    + destruct (String.eqb (Type_ mount) "volume") eqn:Hv; simpl.
      * rewrite IH. by rewrite <- !app_assoc.
      * unfold bind, Logf. rewrite IH. reflexivity.
Qed.

Lemma emit_eq lines (w : W) :
  emit lines w = (tt, w, map (fun line => Logged line.1 line.2) lines).
Proof.
  induction lines as [|[lvl msg] rest IH]; simpl; [done|].
  unfold bind, Logf. by rewrite IH.
Qed.

Lemma builtPod_manifest k id mc img wm idt init :
  builtPod lib k id mc img wm idt init =
  (if negb (String.eqb (NodeSelector (config k)) "") then
     setNodeSelector
       (podManifest id (ServiceAccount (config k))
          (if init then (getInitContainer lib k mc img).1 else [])
          img (GetContainerEntrypointAndArgs lib mc idt).1
          (parseResources lib (Resources (config k))).1
          (GetContainerEntrypointAndArgs lib mc idt).2
          (foldl (fun envVars kv =>
             envVars ++ [ {| EnvVar.Name := kv.1; EnvVar.Value := kv.2 |} ])
             [] (rangeEnv lib (ContainerEnv mc)))
          ([getVolumeMount 0%Z (ParseMount lib wm)] ++ declaredVolumeMounts 0%Z (Mounts mc))
          (if bool_decide (0 < length (CapAdd mc)) then
             Some {| Capabilities.Add :=
                foldl (fun add cap => add ++ [cap]) [] (CapAdd mc);
              Capabilities.Drop := [] |}
           else None)
          (config.Privileged mc))
       (parseLabels lib (NodeSelector (config k))).1
   else
       (podManifest id (ServiceAccount (config k))
          (if init then (getInitContainer lib k mc img).1 else [])
          img (GetContainerEntrypointAndArgs lib mc idt).1
          (parseResources lib (Resources (config k))).1
          (GetContainerEntrypointAndArgs lib mc idt).2
          (foldl (fun envVars kv =>
             envVars ++ [ {| EnvVar.Name := kv.1; EnvVar.Value := kv.2 |} ])
             [] (rangeEnv lib (ContainerEnv mc)))
          ([getVolumeMount 0%Z (ParseMount lib wm)] ++ declaredVolumeMounts 0%Z (Mounts mc))
          (if bool_decide (0 < length (CapAdd mc)) then
             Some {| Capabilities.Add :=
                foldl (fun add cap => add ++ [cap]) [] (CapAdd mc);
              Capabilities.Drop := [] |}
           else None)
          (config.Privileged mc))).
Proof.
  unfold builtPod, devpodContainer, securityContext, volumeMountList, podManifest, setNodeSelector.
  rewrite (foldl_snoc (fun kv : string * string => {| EnvVar.Name := kv.1; EnvVar.Value := kv.2 |})).
  rewrite (foldl_snoc (fun cap : string => cap)), map_id. simpl.
  replace (if bool_decide (0 < length (CapAdd mc))
     then Some {| Capabilities.Add := CapAdd mc; Capabilities.Drop := [] |}
     else None) with (if CapAdd mc is [] then None
       else Some {| Capabilities.Add := CapAdd mc; Capabilities.Drop := [] |}).
  2:{ by destruct (CapAdd mc). }
  destruct (String.eqb (NodeSelector (config k)) ""); reflexivity.
Qed.

Ltac reshape es' :=
  match goal with
  | |- ContainerRun _ _ _ _ _ _ _ _ _ _ _ _ _ ?es =>
      replace es with es'
        by (unfold submissionEvents, waitEvents; by rewrite <- ?app_assoc)
  end.

Lemma runContainer_run k id pc mc img wm idt init w r w' es :
  runContainer lib cl k id pc mc img wm idt init w = (r, w', es) ->
  ContainerRun lib cl k id pc mc img wm idt init w r w' es.
Proof.
  pose proof (builtPod_manifest k id mc img wm idt init) as Hpod.
  unfold runContainer.
  destruct (String.eqb (Target (ParseMount lib wm)) "") eqn:Ht.
  { apply String.eqb_eq in Ht. intros [= <- <- <-]. by constructor. }
  apply String.eqb_neq in Ht.
  destruct (if init then getInitContainer lib k mc img else ([], None))
    as [initContainer [e|]] eqn:Hinit.
  { destruct init; [|done]. intros [= <- <- <-].
    apply RunNoInitContainer; [done..|by rewrite Hinit]. }
  assert (Hconf : configured lib k mc img wm init).
  { split; [done|]. intros ->. by rewrite Hinit. }
  assert (initContainer = if init then (getInitContainer lib k mc img).1 else []) as ->.
  { destruct init; [by rewrite Hinit|congruence]. }
  clear Hinit.
  unfold bind at 1. rewrite mountLoop_eq. fold (mountWarnings lib mc).
  unfold bind at 1.
  (* service account *)
  assert (Hsa : exists err w1,
    (if negb (String.eqb (ServiceAccount (config k)) "")
     then let* err := createServiceAccount cl id (ServiceAccount (config k))
          in ret (ServiceAccount (config k), err)
     else ret ("", None)) w
    = ((ServiceAccount (config k), err), w1, serviceAccountEvents k id err)
    /\ (err <> None -> ServiceAccount (config k) <> "")).
  { unfold serviceAccountEvents.
    destruct (String.eqb (ServiceAccount (config k)) "") eqn:Hsa; simpl.
    - apply String.eqb_eq in Hsa. rewrite Hsa. by exists None, w.
    - apply String.eqb_neq in Hsa. unfold bind, ret, createServiceAccount.
      destruct (k_createServiceAccount cl id (ServiceAccount (config k)) w) as [err w1].
      exists err, w1. by rewrite app_nil_r. }
  destruct Hsa as (err & w1 & -> & Hsa).
  destruct err as [e|].
  { intros [= <- <- <-]. rewrite app_nil_r.
    apply RunNoServiceAccount; [done|]. by apply Hsa. }
  clear Hsa.
  rewrite (surjective_pairing (GetContainerEntrypointAndArgs lib mc idt)).
  rewrite (surjective_pairing (parseResources lib (Resources (config k)))).
  unfold bind at 1. rewrite emit_eq. fold (resourceLines lib k).
  (* node selector *)
  destruct (String.eqb (NodeSelector (config k)) "") eqn:Hns;
    cbn [negb] in Hpod |- *.
  2: destruct (parseLabels lib (NodeSelector (config k))) as [selector [e|]] eqn:Hparse;
    cbn [fst snd] in Hpod.
  2:{ intros [= <- <- <-]. rewrite ?app_nil_r.
      apply String.eqb_neq in Hns. apply RunNotPlaced; [done..|by rewrite Hparse]. }
  all: assert (Hplaced : placed lib k)
    by (first [ apply String.eqb_eq in Hns; by intros ? | intros _; by rewrite Hparse ]);
    clear Hns; try clear Hparse.
  all: rewrite <- Hpod; clear Hpod.
  all: destruct (json_Marshal lib (builtPod lib k id mc img wm idt init))
    as [raw [e1|]] eqn:Hraw.
  all: try (intros [= <- <- <-]; rewrite ?app_nil_r;
            apply RunNotMarshalled; [done..|by rewrite Hraw]).
  all: unfold bind, Logf, runCommand, waitPodRunning.
  all: destruct (k_runCommand cl ["create"; "-f"; "-"] (Some raw) w1)
    as [[out [e2|]] w2].
  all: unfold ret; cbv beta iota zeta.
  all: try (intros [= <- <- <-]; rewrite ?app_nil_r;
            by apply (RunNotSubmitted lib cl k id pc mc img wm idt _ w raw out e2 w2)).
  all: destruct (k_waitPodRunning cl id w2) as [[e3|] w3]; cbv beta iota zeta.
  all: try (intros [= <- <- <-]; rewrite ?app_nil_r;
            reshape (submissionEvents lib k id mc raw out None ++ waitEvents id (Some e3));
            by apply (RunNotUp lib cl k id pc mc img wm idt _ w raw out e3 w3)).
  all: destruct init; cbv beta iota zeta.
  all: try (intros [= <- <- <-]; rewrite ?app_nil_r;
            reshape (submissionEvents lib k id mc raw out None ++ waitEvents id None);
            by apply (RunRestarted lib cl k id pc mc img wm idt false w raw out w3)).
  all: destruct (copyLoop lib cl id pc ([ParseMount lib wm] ++ List.filter isBind (Mounts mc)) w3)
         as [[r' w''] seed] eqn:Hseed.
  all: cbv beta iota zeta; intros [= <- <- <-].
  all: reshape (submissionEvents lib k id mc raw out None ++ waitEvents id None ++ seed).
  all: by apply (RunSeeded lib cl k id pc mc img wm idt true w raw out w3).
Qed.

Lemma RunDevContainer_run k pc mc img wm labels ide ideOptions idt w r w' es :
  RunDevContainer lib cl k pc mc img wm labels ide ideOptions idt w = (r, w', es) ->
  DevContainerRun lib cl k pc mc img wm labels idt w r w' es.
Proof.
  unfold RunDevContainer.
  destruct (getID lib k labels) as [id err] eqn:Hid.
  assert (id = (getID lib k labels).1) as -> by by rewrite Hid.
  assert (Herr : (getID lib k labels).2 = err) by by rewrite Hid.
  clear Hid. destruct err as [e|].
  { intros [= <- <- <-]. by apply DevNoIdentity. }
  set (id := (getID lib k labels).1).
  assert (Hns : exists ns w1,
    namespaceStep k ns /\
    (if negb (String.eqb (namespace k) "")
        && String.eqb (CreateNamespace (config k)) "true"
     then
       let* _ := Logf Debug ("Create namespace '" +:+ namespace k +:+ "'") in
       let* (_, err) := runCommand cl ["create"; "ns"; namespace k] None in
       if err is Some e then Logf Debug ("Error creating namespace: " +:+ Error e)
       else ret tt
     else ret tt) w = (tt, w1, namespaceEvents k ns)).
  { unfold namespaceStep.
    destruct (String.eqb (namespace k) "") eqn:Hn; simpl.
    { apply String.eqb_eq in Hn. exists None, w. split; [|done].
      split; [by intros []|]. by intros [? _]. }
    apply String.eqb_neq in Hn.
    destruct (String.eqb (CreateNamespace (config k)) "true") eqn:Hc.
    2:{ apply String.eqb_neq in Hc. exists None, w. split; [|done].
        split; [by intros []|]. by intros [_ ?]. }
    apply String.eqb_eq in Hc.
    unfold bind, Logf, runCommand, ret.
    destruct (k_runCommand cl ["create"; "ns"; namespace k] None w)
      as [[out err] w1].
    exists (Some (out, err)), w1. split; [by split; eauto|].
    by destruct err. }
  destruct Hns as (ns & w1 & Hns & Hstep).
  unfold bind at 1. rewrite Hstep. clear Hstep.
  unfold bind at 1, getDevContainerPvc.
  destruct (k_getDevContainerPvc cl id w1) as [[[pvc info] [e|]] w2];
    unfold ret; cbv beta iota zeta.
  { intros [= <- <- <-]. rewrite ?app_nil_r.
    by apply (DevLookupFailed lib cl k pc mc img wm labels idt w ns pvc info e w2). }
  destruct pvc as [pvc|].
  - unfold bind.
    destruct (runContainer lib cl k id pc mc img wm idt false w2)
      as [[r' w''] es'] eqn:Hrun.
    assert ((if r' is Some e then Some e else None) = r') as Hr by by destruct r'.
    destruct r'; intros [= <- <- <-]; rewrite ?app_nil_r;
      by apply (DevRestart lib cl k pc mc img wm labels idt w ns pvc info w2).
  - unfold bind at 1, createPersistentVolumeClaim.
    destruct (k_createPersistentVolumeClaim cl id pc mc img wm labels idt w2)
      as [[e|] w3]; cbv beta iota zeta.
    { intros [= <- <- <-]. rewrite ?app_nil_r.
      by apply (DevNotCreated lib cl k pc mc img wm labels idt w ns info e w3). }
    unfold bind.
    destruct (runContainer lib cl k id pc mc img wm idt true w3)
      as [[r' w''] es'] eqn:Hrun.
    destruct r'; intros [= <- <- <-]; rewrite ?app_nil_r;
      by apply (DevFirstRun lib cl k pc mc img wm labels idt w ns info w3).
Qed.


(** *** The seeding loop *)

Lemma copyLoop_cons id pc copyMount rest (w : W) :
  copyLoop lib cl id pc (copyMount :: rest) w =
  let '(out, err, w1) :=
    k_runCommandWithDir cl (filepath_Dir lib (Origin pc))
      ["cp"; "-c"; "devpod";
       TrimRight (Source copyMount) "/" +:+ "/.";
       id +:+ ":" +:+ TrimRight (Target copyMount) "/"] None w in
  match err with
  | Some e =>
      (Some (Wrap e "copy to devcontainer"), w1,
       [copyLine copyMount; Remote (copyCall lib id pc copyMount out (Some e))])
  | None =>
      let '(r, w', es) := copyLoop lib cl id pc rest w1 in
      (r, w', copyLine copyMount :: Remote (copyCall lib id pc copyMount out None) :: es)
  end.
Proof.
  cbn [copyLoop]. unfold bind, Logf, runCommandWithDir, ret, copyCall, copyLine.
  destruct (k_runCommandWithDir _ _ _ _ _) as [[out [e|]] w1]; [done|].
  by destruct (copyLoop lib cl id pc rest w1) as [[r w'] es].
Qed.

(** The calls of the loop are the copies for a prefix of the list, in the
    order of the list. *)
Lemma copyLoop_calls id pc copyFromLocal : forall (w : W) r w' es,
  copyLoop lib cl id pc copyFromLocal w = (r, w', es) ->
  exists n,
    Forall2 (fun c copyMount => exists out err, c = copyCall lib id pc copyMount out err)
      (remote_calls es) (take n copyFromLocal).
Proof.
  induction copyFromLocal as [|copyMount rest IH]; intros w r w' es.
  - intros [= <- <- <-]. exists 0. constructor.
  - rewrite copyLoop_cons.
    destruct (k_runCommandWithDir _ _ _ _ _) as [[out [e|]] w1].
    + intros [= <- <- <-]. exists 1. cbn. rewrite take_0. repeat econstructor.
    + destruct (copyLoop lib cl id pc rest w1) as [[r1 w1'] es1] eqn:Hrest.
      intros [= <- <- <-]. destruct (IH _ _ _ _ Hrest) as [n Hn].
      exists (S n). cbn. constructor; [by eauto|done].
Qed.

(** When every copy succeeds the loop copies the whole list and returns
    no error. *)
Lemma copyLoop_succeeds id pc copyFromLocal : forall (w : W) r w' es,
  copyLoop lib cl id pc copyFromLocal w = (r, w', es) ->
  Forall (fun c => succeeded c = true) (remote_calls es) ->
  r = None /\
  Forall2 (fun c copyMount => exists out, c = copyCall lib id pc copyMount out None)
    (remote_calls es) copyFromLocal.
Proof.
  induction copyFromLocal as [|copyMount rest IH]; intros w r w' es.
  - intros [= <- <- <-] _. split; [done|constructor].
  - rewrite copyLoop_cons.
    destruct (k_runCommandWithDir _ _ _ _ _) as [[out [e|]] w1].
    + intros [= <- <- <-]. cbn. by inversion 1.
    + destruct (copyLoop lib cl id pc rest w1) as [[r1 w1'] es1] eqn:Hrest.
      intros [= <- <- <-]. cbn. inversion 1; subst.
      destruct (IH _ _ _ _ Hrest) as [-> Hcalls]; [done|].
      split; [done|]. constructor; [by eauto|done].
Qed.

(** A copy that fails is the last event of the loop, and its error is
    returned wrapped. *)
Lemma copyLoop_fails id pc copyFromLocal : forall (w : W) r w' es pre c post e,
  copyLoop lib cl id pc copyFromLocal w = (r, w', es) ->
  es = pre ++ Remote c :: post ->
  callError c = Some e ->
  post = [] /\ r = Some (Wrap e "copy to devcontainer").
Proof.
  induction copyFromLocal as [|copyMount rest IH]; intros w r w' es pre c post e.
  - intros [= <- <- <-] Hes. by destruct pre.
  - rewrite copyLoop_cons.
    destruct (k_runCommandWithDir _ _ _ _ _) as [[out [e0|]] w1].
    + intros [= <- <- <-] Hes Herr.
      destruct pre as [|? [|? [|? pre]]]; simplify_eq/=; done.
    + destruct (copyLoop lib cl id pc rest w1) as [[r1 w1'] es1] eqn:Hrest.
      intros [= <- <- <-] Hes Herr.
      destruct pre as [|? [|? pre]]; simplify_eq/=.
      by eapply IH.
Qed.


(** *** The remote calls of [runContainer] *)

Lemma remote_calls_mountWarnings mc : remote_calls (mountWarnings lib mc) = [].
Proof. unfold mountWarnings. by induction (List.filter _ _). Qed.

Lemma remote_calls_resourceLines k : remote_calls (resourceLines lib k) = [].
Proof. unfold resourceLines. by induction (parseResources _ _).2. Qed.

Lemma remote_calls_submissionEvents k id mc raw out err :
  remote_calls (submissionEvents lib k id mc raw out err) =
  remote_calls (serviceAccountEvents k id None)
  ++ [CRunCommand ["create"; "-f"; "-"] (Some raw) out err].
Proof.
  unfold submissionEvents.
  by rewrite !remote_calls_app, remote_calls_mountWarnings, remote_calls_resourceLines.
Qed.

Lemma remote_calls_waitEvents id err :
  remote_calls (waitEvents id err) = [CWaitPodRunning id err].
Proof. reflexivity. Qed.

Lemma serviceAccountEvents_calls k id err c :
  c ∈ remote_calls (serviceAccountEvents k id err) ->
  c = CCreateServiceAccount id (ServiceAccount (config k)) err
  /\ ServiceAccount (config k) <> "".
Proof.
  unfold serviceAccountEvents.
  destruct (String.eqb (ServiceAccount (config k)) "") eqn:Hsa; cbn.
  - by intros ?%elem_of_nil.
  - apply String.eqb_neq in Hsa. by intros ->%list_elem_of_singleton.
Qed.

Lemma copyLoop_containerCalls k id pc mc img wm idt w r w' es :
  copyLoop lib cl id pc (copyList lib mc wm) w = (r, w', es) ->
  Forall (containerCall lib k id pc mc img wm idt true) (remote_calls es).
Proof.
  intros [n Hn]%copyLoop_calls. apply Forall_forall. intros c Hc.
  destruct (list_elem_of_lookup_1 _ _ Hc) as [i Hi].
  destruct (Forall2_lookup_l _ _ _ _ _ Hn Hi) as (copyMount & Hm & out & err & ->).
  do 3 right. split; [done|]. exists copyMount, out, err. split; [|done].
  apply list_elem_of_lookup. exists i. by apply lookup_take_Some in Hm as [? _].
Qed.

(** Every remote call of a run is one [containerCall] allows. *)
Lemma runContainer_calls k id pc mc img wm idt init w r w' es :
  runContainer lib cl k id pc mc img wm idt init w = (r, w', es) ->
  Forall (containerCall lib k id pc mc img wm idt init) (remote_calls es).
Proof.
  intros Hrun%runContainer_run. apply Forall_forall. intros c.
  destruct Hrun;
    rewrite ?remote_calls_app, ?remote_calls_submissionEvents,
      ?remote_calls_mountWarnings, ?remote_calls_resourceLines,
      ?remote_calls_waitEvents;
    rewrite ?elem_of_app, ?elem_of_cons, ?elem_of_nil.
  all: intros Hc;
    repeat match goal with Hor : _ \/ _ |- _ => destruct Hor as [Hor|Hor] end;
    try done.
  all: try (apply serviceAccountEvents_calls in Hc as [-> _]; left; by eauto).
  all: try (subst c; right; left; by eauto 10).
  all: try (subst c; do 2 right; left; by eauto).
  subst.
  by eapply Forall_forall in Hc; [|by eapply copyLoop_containerCalls].
Qed.


(** ** The mount loop *)


Lemma declaredVolumeMounts_app before after : forall idx,
  declaredVolumeMounts idx (before ++ after) =
  declaredVolumeMounts idx before
  ++ declaredVolumeMounts (idx + Z.of_nat (length before))%Z after.
Proof.
  induction before as [|mount before IH]; intros idx; cbn [declaredVolumeMounts app length].
  - by rewrite Z.add_0_r.
  - rewrite IH, <- app_assoc. do 3 f_equal. lia.
Qed.


(** ** [StartDevContainer] *)

(** C3: when the lookup reports no snapshot, [StartDevContainer] returns
    the not-found error and the lookup is the only remote call it made: it
    creates nothing. *)
Theorem Start_missing_volume (k : kubernetesDriver) (id : string)
    (labels : list string) (w w1 : W) (pvc : option PersistentVolumeClaim.t) :
  k_getDevContainerPvc cl id w = (pvc, None, None, w1) ->
  StartDevContainer lib cl k id labels w =
    (Some (New ("persistent volume '" +:+ id +:+ "' not found")), w1,
     [Remote (CGetDevContainerPvc id pvc None None)])
  /\ Forall (fun c => isVolumeCreation c = false
                     /\ isServiceAccountCreation c = false
                     /\ isPodSubmission c = false
                     /\ isCopy c = false)
       (remote_calls (events (StartDevContainer lib cl k id labels) w)).
Proof.
  intros Hlookup.
  assert (Hstart : StartDevContainer lib cl k id labels w =
    (Some (New ("persistent volume '" +:+ id +:+ "' not found")), w1,
     [Remote (CGetDevContainerPvc id pvc None None)])).
  { unfold StartDevContainer, bind, getDevContainerPvc. by rewrite Hlookup. }
  split; [done|]. unfold events. rewrite Hstart. by repeat constructor.
Qed.

(** A lookup that fails is all [StartDevContainer] does; its error is
    returned as it is. *)
Lemma Start_lookup_failed (k : kubernetesDriver) (id : string)
    (labels : list string) (w w1 : W) (pvc : option PersistentVolumeClaim.t)
    (info : option DevContainerInfo) (e : error) :
  k_getDevContainerPvc cl id w = (pvc, info, Some e, w1) ->
  StartDevContainer lib cl k id labels w =
    (Some e, w1, [Remote (CGetDevContainerPvc id pvc info (Some e))]).
Proof.
  intros Hlookup. unfold StartDevContainer, bind, getDevContainerPvc.
  by rewrite Hlookup.
Qed.

(** ** Independence from the IDE *)

(** C10: [RunDevContainer] does not look at [ide] and [ideOptions]: two
    calls that differ in them only return the same result, leave the same
    world and produce the same events. *)
Theorem Run_ignores_ide (k : kubernetesDriver)
    (parsedConfig : DevContainerConfig) (mergedConfig : MergedDevContainerConfig)
    (imageName workspaceMount : string) (labels : list string)
    (ide1 ide2 : string) (ideOptions1 ideOptions2 : gmap string config2.OptionValue)
    (imageDetails : ImageDetails) (w : W) :
  RunDevContainer lib cl k parsedConfig mergedConfig imageName workspaceMount
    labels ide1 ideOptions1 imageDetails w =
  RunDevContainer lib cl k parsedConfig mergedConfig imageName workspaceMount
    labels ide2 ideOptions2 imageDetails w.
Proof. reflexivity. Qed.


(** ** The remote calls of [RunDevContainer] *)

Lemma namespaceEvents_calls k ns c :
  c ∈ remote_calls (namespaceEvents k ns) ->
  exists out err, c = CRunCommand ["create"; "ns"; namespace k] None out err.
Proof.
  destruct ns as [[out [e|]]|]; cbn;
    [intros ->%list_elem_of_singleton; by eauto..|by intros ?%elem_of_nil].
Qed.

Lemma RunDevContainer_calls k pc mc img wm labels ide ideOptions idt w r w' es :
  RunDevContainer lib cl k pc mc img wm labels ide ideOptions idt w = (r, w', es) ->
  Forall (devContainerCall lib k pc mc img wm labels idt) (remote_calls es).
Proof.
  intros Hrun%RunDevContainer_run. apply Forall_forall. intros c.
  destruct Hrun; rewrite ?remote_calls_app; cbn [remote_calls omap list_omap];
    rewrite ?elem_of_app, ?elem_of_cons, ?elem_of_nil.
  all: intros Hc;
    repeat match goal with Hor : _ \/ _ |- _ => destruct Hor as [Hor|Hor] end;
    try done.
  all: try (destruct (namespaceEvents_calls _ _ _ Hc) as (out & err & ->);
            left; by eauto).
  all: try (subst c; right; left; by eauto).
  all: try (subst c; do 2 right; left; by eauto).
  all: do 3 right.
  all: match goal with
       | Hrc : runContainer _ _ _ _ _ _ _ _ _ ?init _ = _ |- _ =>
           exists init; apply runContainer_calls in Hrc;
           by eapply Forall_forall in Hrc
       end.
Qed.

(** A submission among the calls [runContainer] can make is the
    submission of [builtPod]. *)
Lemma containerCall_submission k id pc mc img wm idt init c :
  containerCall lib k id pc mc img wm idt init c ->
  isPodSubmission c = true ->
  exists raw out err,
    c = CRunCommand ["create"; "-f"; "-"] (Some raw) out err
    /\ marshalled lib (builtPod lib k id mc img wm idt init) raw.
Proof.
  intros [(err & ->)|[(raw & out & err & -> & Hraw)|[(err & ->)|(_ & m & out & err & _ & ->)]]];
    try done.
  intros _. by exists raw, out, err.
Qed.

Lemma devContainerCall_submission k pc mc img wm labels idt c :
  devContainerCall lib k pc mc img wm labels idt c ->
  isPodSubmission c = true ->
  exists initialize raw out err,
    c = CRunCommand ["create"; "-f"; "-"] (Some raw) out err
    /\ marshalled lib
         (builtPod lib k (getID lib k labels).1 mc img wm idt initialize) raw.
Proof.
  intros [(out & err & ->)|[(pvc & info & err & ->)|[(err & ->)|(init & Hc)]]];
    try done.
  intros (raw & out & err & -> & Hraw)%(containerCall_submission _ _ _ _ _ _ _ _ _ Hc).
  by exists init, raw, out, err.
Qed.


(** ** The submitted pod *)

(** C6: whatever the configuration asks for, the pod [runContainer]
    submits runs its main container as user 0 and group 0 with
    [RunAsNonRoot] false; the privileged flag and the added capabilities of
    the configuration sit next to these three fields. *)
Theorem pod_runs_as_root (k : kubernetesDriver) (id : string)
    (parsedConfig : DevContainerConfig) (mergedConfig : MergedDevContainerConfig)
    (imageName workspaceMount : string) (imageDetails : ImageDetails)
    (initialize : bool) (w : W) (i : nat) (c : Call) :
  remote_calls (events (runContainer lib cl k id parsedConfig mergedConfig imageName
                          workspaceMount imageDetails initialize) w) !! i = Some c ->
  isPodSubmission c = true ->
  exists pod raw out err main securityContext,
    c = CRunCommand ["create"; "-f"; "-"] (Some raw) out err
    /\ marshalled lib pod raw
    /\ PodSpec.Containers (Pod.Spec pod) = [main]
    /\ Container.SecurityContext main = Some securityContext
    /\ SecurityContext.RunAsUser securityContext = Some 0%Z
    /\ SecurityContext.RunAsGroup securityContext = Some 0%Z
    /\ SecurityContext.RunAsNonRoot securityContext = Some false
    /\ SecurityContext.Privileged securityContext = config.Privileged mergedConfig
    /\ SecurityContext.Capabilities securityContext =
         (if CapAdd mergedConfig is [] then None
          else Some {| Capabilities.Add := CapAdd mergedConfig;
                       Capabilities.Drop := [] |}).
Proof.
  unfold events. intros Hc Hsub.
  destruct (runContainer _ _ _ _ _ _ _ _ _ _ _) as [[r w'] es] eqn:Hrun.
  apply runContainer_calls in Hrun.
  apply list_elem_of_lookup_2 in Hc.
  eapply Forall_forall in Hrun; [|done].
  destruct (containerCall_submission _ _ _ _ _ _ _ _ _ Hrun Hsub)
    as (raw & out & err & -> & Hraw).
  by eexists _, raw, out, err, _, _.
Qed.

(** C9, as the code has it: a submitted pod is named by the [id]
    [runContainer] was called with and its one volume is the claim of that
    name, so the pod and its volume share one name.  In a run of
    [RunDevContainer] that name is the identity derived from the labels, and
    the volume is looked up and created under it too.  In a run of
    [StartDevContainer] it is the [id] of the caller, under which the volume
    is looked up, whatever the labels are. *)
Theorem pod_and_volume_share_identity (k : kubernetesDriver) (id : string)
    (parsedConfig : DevContainerConfig) (mergedConfig : MergedDevContainerConfig)
    (imageName workspaceMount : string) (labels startLabels : list string)
    (ide : string) (ideOptions : gmap string config2.OptionValue)
    (imageDetails : ImageDetails) (initialize : bool) (w : W) (i : nat) (c : Call) :
  let submitsUnder (name : string) : Prop :=
    exists pod raw out err,
      c = CRunCommand ["create"; "-f"; "-"] (Some raw) out err
      /\ marshalled lib pod raw
      /\ Pod.Name pod = name
      /\ PodSpec.Volumes (Pod.Spec pod) =
           [ {| Volume.Name := "devpod";
                Volume.PersistentVolumeClaim :=
                  Some {| PersistentVolumeClaimVolumeSource.ClaimName := name |} |} ] in
  (remote_calls (events (runContainer lib cl k id parsedConfig mergedConfig imageName
                           workspaceMount imageDetails initialize) w) !! i = Some c ->
   isPodSubmission c = true -> submitsUnder id)
  /\ (remote_calls (events (RunDevContainer lib cl k parsedConfig mergedConfig imageName
                              workspaceMount labels ide ideOptions imageDetails) w) !! i
        = Some c ->
      (isPodSubmission c = true -> submitsUnder (getID lib k labels).1)
      /\ (isVolumeCreation c = true ->
          exists err,
            c = CCreatePersistentVolumeClaim (getID lib k labels).1 parsedConfig
                  mergedConfig imageName workspaceMount labels imageDetails err)
      /\ (isVolumeLookup c = true ->
          exists pvc info err,
            c = CGetDevContainerPvc (getID lib k labels).1 pvc info err))
  /\ (remote_calls (events (StartDevContainer lib cl k id startLabels) w) !! i = Some c ->
      (isPodSubmission c = true -> submitsUnder id)
      /\ (isVolumeLookup c = true ->
          exists pvc info err, c = CGetDevContainerPvc id pvc info err)
      /\ isVolumeCreation c = false).
Proof.
  intros submitsUnder. unfold submitsUnder. clear submitsUnder.
  assert (Hcontainer : forall id pc mc img wm idt init w r w' es,
    runContainer lib cl k id pc mc img wm idt init w = (r, w', es) ->
    c ∈ remote_calls es ->
    (isPodSubmission c = true ->
     exists pod raw out err,
       c = CRunCommand ["create"; "-f"; "-"] (Some raw) out err
       /\ marshalled lib pod raw
       /\ Pod.Name pod = id
       /\ PodSpec.Volumes (Pod.Spec pod) =
            [ {| Volume.Name := "devpod";
                 Volume.PersistentVolumeClaim :=
                   Some {| PersistentVolumeClaimVolumeSource.ClaimName := id |} |} ])
    /\ isVolumeLookup c = false /\ isVolumeCreation c = false).
  { intros id' pc mc img wm idt init w0 r w' es Hrun%runContainer_calls Hc.
    eapply Forall_forall in Hrun; [|done]. split.
    - intros Hsub.
      destruct (containerCall_submission _ _ _ _ _ _ _ _ _ Hrun Hsub)
        as (raw & out & err & -> & Hraw).
      by eexists _, raw, out, err.
    - by destruct Hrun
        as [(err & ->)|[(raw & out & err & -> & _)|[(err & ->)|(_ & m & out & err & _ & ->)]]]. }
  split; [|split].
  - unfold events.
    destruct (runContainer _ _ _ _ _ _ _ _ _ _ _) as [[r w'] es] eqn:Hrun.
    intros Hc%list_elem_of_lookup_2 Hsub.
    by apply (Hcontainer _ _ _ _ _ _ _ _ _ _ _ Hrun Hc).
  - unfold events.
    destruct (RunDevContainer _ _ _ _ _ _ _ _ _ _ _ _) as [[r w'] es] eqn:Hrun.
    apply RunDevContainer_calls in Hrun. intros Hc%list_elem_of_lookup_2.
    eapply Forall_forall in Hrun; [|done]. clear Hc.
    split; [|split].
    + intros Hsub.
      destruct (devContainerCall_submission _ _ _ _ _ _ _ _ Hrun Hsub)
        as (init & raw & out & err & -> & Hraw).
      by eexists _, raw, out, err.
    + destruct Hrun as [(out & err & ->)|[(pvc & info & err & ->)|[(err & ->)|(init & Hc)]]];
        try done; [by eauto|].
      by destruct Hc as [(err & ->)|[(raw & out & err & -> & _)|[(err & ->)|(_ & m & out & err & _ & ->)]]].
    + destruct Hrun as [(out & err & ->)|[(pvc & info & err & ->)|[(err & ->)|(init & Hc)]]];
        try done; [by eauto|].
      by destruct Hc as [(err & ->)|[(raw & out & err & -> & _)|[(err & ->)|(_ & m & out & err & _ & ->)]]].
  - unfold events, StartDevContainer, bind, getDevContainerPvc.
    destruct (k_getDevContainerPvc cl id w) as [[[pvc info] [e|]] w1];
      cbv beta iota zeta.
    { cbn. intros Hc%list_elem_of_lookup_2.
      apply list_elem_of_singleton in Hc as ->.
      split; [done|]. split; [by eauto|done]. }
    destruct info as [info|].
    2:{ cbn. intros Hc%list_elem_of_lookup_2.
        apply list_elem_of_singleton in Hc as ->.
        split; [done|]. split; [by eauto|done]. }
    destruct (runContainer _ _ _ _ _ _ _ _ _ _ _) as [[r w'] es] eqn:Hrun.
    cbn. intros Hc%list_elem_of_lookup_2.
    apply elem_of_cons in Hc as [->|Hc];
      [split; [done|]; split; [by eauto|done]|].
    destruct (Hcontainer _ _ _ _ _ _ _ _ _ _ _ Hrun Hc) as (Hsub & Hlookup & Hcreate).
    split; [done|]. split; [|done]. by rewrite Hlookup.
Qed.


(** ** Validation of the workspace mount *)

Lemma runContainer_empty_target k id pc mc img wm idt init (w : W) :
  Target (ParseMount lib wm) = "" ->
  runContainer lib cl k id pc mc img wm idt init w =
    (Some (New "workspace mount target is empty"), w, []).
Proof. intros Ht. unfold runContainer. by rewrite Ht. Qed.

(** C1, as the code has it: with an empty workspace target [runContainer]
    fails with the configuration error before it calls the cluster or logs
    anything.  [RunDevContainer] reaches that check after its own steps:
    it never succeeds, it creates no service account, submits no pod,
    waits for none and copies nothing, and it returns the configuration
    error as soon as the identity is derived and the lookup and creation
    of the volume succeed. *)
Theorem empty_target_is_rejected (k : kubernetesDriver) (id : string)
    (parsedConfig : DevContainerConfig) (mergedConfig : MergedDevContainerConfig)
    (imageName workspaceMount : string) (labels : list string)
    (ide : string) (ideOptions : gmap string config2.OptionValue)
    (imageDetails : ImageDetails) (initialize : bool) (w : W) :
  Target (ParseMount lib workspaceMount) = "" ->
  let run :=
    RunDevContainer lib cl k parsedConfig mergedConfig imageName workspaceMount
      labels ide ideOptions imageDetails in
  runContainer lib cl k id parsedConfig mergedConfig imageName workspaceMount
    imageDetails initialize w
    = (Some (New "workspace mount target is empty"), w, [])
  /\ result run w <> None
  /\ Forall (fun c => isServiceAccountCreation c = false
                      /\ isPodSubmission c = false
                      /\ isWait c = false
                      /\ isCopy c = false)
       (remote_calls (events run w))
  /\ ((getID lib k labels).2 = None ->
      Forall (fun c => isVolumeLookup c || isVolumeCreation c = true ->
                       succeeded c = true)
        (remote_calls (events run w)) ->
      result run w = Some (New "workspace mount target is empty")).
Proof.
  intros Ht run. split; [by apply runContainer_empty_target|].
  unfold result, events, run.
  destruct (RunDevContainer _ _ _ _ _ _ _ _ _ _ _ _) as [[r w'] es] eqn:Hrun.
  apply RunDevContainer_run in Hrun. cbn [fst snd].
  assert (Hns : forall ns,
    Forall (fun c => isServiceAccountCreation c = false /\ isPodSubmission c = false
                     /\ isWait c = false /\ isCopy c = false)
      (remote_calls (namespaceEvents k ns))).
  { intros ns. apply Forall_forall. by intros c (out & err & ->)%namespaceEvents_calls. }
  destruct Hrun as [e He|ns pvc info e w1 Hid Hstep|ns info e w1 Hid Hstep
                   |ns info w1 r w' es Hid Hstep Hrc|ns pvc info w1 r w' es Hid Hstep Hrc];
    try (rewrite runContainer_empty_target in Hrc by done; simplify_eq);
    rewrite ?remote_calls_app, ?app_nil_r; cbn [remote_calls omap list_omap].
  all: split; [done|]; split.
  all: rewrite ?Forall_app, ?Forall_cons, ?Forall_nil; try by auto.
  - congruence.
  - intros _ (_ & Hlookup & _). by specialize (Hlookup eq_refl).
  - intros _ (_ & _ & Hcreate & _). by specialize (Hcreate eq_refl).
Qed.


(** ** First run and restart *)

(** [runContainer] neither looks up nor creates a volume, creates no
    namespace and deletes nothing; it copies only when initializing. *)
Lemma containerCall_kind k id pc mc img wm idt init c :
  containerCall lib k id pc mc img wm idt init c ->
  isVolumeLookup c = false /\ isVolumeCreation c = false
  /\ isNamespaceCreation c = false /\ isDelete c = false
  /\ (init = false -> isCopy c = false)
  /\ (isCopy c = true ->
      exists copyMount out err,
        copyMount ∈ copyList lib mc wm /\ c = copyCall lib id pc copyMount out err).
Proof.
  intros [(err & ->)|[(raw & out & err & -> & Hraw)
                     |[(err & ->)|(-> & m & out & err & Hm & ->)]]];
    repeat split; try done.
  intros _. by exists m, out, err.
Qed.

(** X16: whatever the cluster answers, [StartDevContainer] never copies
    anything into the pod and never creates a volume. *)
Lemma Start_never_seeds (k : kubernetesDriver) (id : string)
    (labels : list string) (w : W) :
  Forall (fun c => isCopy c = false /\ isVolumeCreation c = false)
    (remote_calls (events (StartDevContainer lib cl k id labels) w)).
Proof.
  unfold events, StartDevContainer, bind, getDevContainerPvc.
  destruct (k_getDevContainerPvc cl id w) as [[[pvc info] [e|]] w1];
    cbv beta iota zeta; [by repeat constructor|].
  destruct info as [info|]; [|by repeat constructor].
  destruct (runContainer _ _ _ _ _ _ _ _ _ _ _) as [[r w'] es] eqn:Hrun.
  cbn. constructor; [done|].
  eapply Forall_impl; [by eapply runContainer_calls|].
  intros c (_ & ? & _ & _ & Hcopy & _)%containerCall_kind. split; [by apply Hcopy|done].
Qed.

(** C2: when the lookup of a run of [RunDevContainer] finds a volume, the
    run creates no volume and copies nothing: it is the namespace step, the
    lookup, and [runContainer] with [initialize] false. *)
Theorem Run_existing_volume (k : kubernetesDriver)
    (parsedConfig : DevContainerConfig) (mergedConfig : MergedDevContainerConfig)
    (imageName workspaceMount : string) (labels : list string)
    (ide : string) (ideOptions : gmap string config2.OptionValue)
    (imageDetails : ImageDetails) (w : W)
    (i : nat) (id : string) (pvc : PersistentVolumeClaim.t)
    (info : option DevContainerInfo) :
  let run :=
    RunDevContainer lib cl k parsedConfig mergedConfig imageName workspaceMount
      labels ide ideOptions imageDetails in
  remote_calls (events run w) !! i = Some (CGetDevContainerPvc id (Some pvc) info None) ->
  id = (getID lib k labels).1
  /\ Forall (fun c => isVolumeCreation c = false /\ isCopy c = false)
       (remote_calls (events run w))
  /\ exists ns w1,
       namespaceStep k ns
       /\ run w =
          let '(r, w', es) :=
            runContainer lib cl k id parsedConfig mergedConfig imageName
              workspaceMount imageDetails false w1 in
          (r, w',
           namespaceEvents k ns
           ++ [Remote (CGetDevContainerPvc id (Some pvc) info None)] ++ es).
Proof.
  intros run. unfold events, run.
  destruct (RunDevContainer _ _ _ _ _ _ _ _ _ _ _ _) as [[r w'] es] eqn:Hrun.
  apply RunDevContainer_run in Hrun. cbn [fst snd].
  intros Hc%list_elem_of_lookup_2.
  assert (Hrc : forall init w1 r w' es,
    runContainer lib cl k (getID lib k labels).1 parsedConfig mergedConfig imageName
      workspaceMount imageDetails init w1 = (r, w', es) ->
    Forall (fun c => isVolumeLookup c = false /\ isVolumeCreation c = false
                     /\ (init = false -> isCopy c = false)) (remote_calls es)).
  { intros init w1 r1 w1' es1 Hes%runContainer_calls.
    eapply Forall_impl; [done|].
    by intros c (? & ? & _ & _ & ? & _)%containerCall_kind. }
  destruct Hrun as [e He|ns pvc' info' e w1 Hid Hstep|ns info' e w1 Hid Hstep
                   |ns info' w1 r w' es Hid Hstep Hrun|ns pvc' info' w1 r w' es Hid Hstep Hrun];
    revert Hc; rewrite ?remote_calls_app; cbn [remote_calls omap list_omap];
    rewrite ?elem_of_app, ?elem_of_cons, ?elem_of_nil; intros Hc.
  all: repeat match goal with Hor : _ \/ _ |- _ => destruct Hor as [Hor|Hor] end;
    try done.
  all: try (by destruct (namespaceEvents_calls _ _ _ Hc) as (? & ? & ?)).
  all: try (apply Hrc in Hrun; eapply Forall_forall in Hrun; [|done];
            by destruct Hrun as (? & ? & ?)).
  simplify_eq. split; [done|]. split.
  - rewrite !Forall_app, Forall_cons. split; [|split; [done|]].
    + apply Forall_forall. by intros c (? & ? & ->)%namespaceEvents_calls.
    + apply Hrc in Hrun. eapply Forall_impl; [done|].
      intros c (_ & ? & Hcopy). split; [done|]. by apply Hcopy.
  - exists ns, w1. split; [done|]. by rewrite Hrun.
Qed.


(** ** Seeding *)

Lemma copyLoop_done id pc copyFromLocal : forall (w : W) w' es,
  copyLoop lib cl id pc copyFromLocal w = (None, w', es) ->
  Forall2 (fun c copyMount => exists out, c = copyCall lib id pc copyMount out None)
    (remote_calls es) copyFromLocal.
Proof.
  induction copyFromLocal as [|copyMount rest IH]; intros w w' es.
  - intros [= <- <-]. constructor.
  - rewrite copyLoop_cons.
    destruct (k_runCommandWithDir _ _ _ _ _) as [[out [e|]] w1]; [done|].
    destruct (copyLoop lib cl id pc rest w1) as [[r1 w1'] es1] eqn:Hrest.
    intros [= -> <- <-]. cbn. constructor; [by eauto|by eapply IH].
Qed.


Lemma filter_isCopy_serviceAccount k id err :
  List.filter isCopy (remote_calls (serviceAccountEvents k id err)) = [].
Proof.
  unfold serviceAccountEvents. by destruct (String.eqb (ServiceAccount (config k)) "").
Qed.

Lemma filter_isCopy_submission k id mc raw out err :
  List.filter isCopy (remote_calls (submissionEvents lib k id mc raw out err)) = [].
Proof.
  rewrite remote_calls_submissionEvents, List.filter_app.
  by rewrite filter_isCopy_serviceAccount.
Qed.





(** ** A copy that fails *)

(** An event list that starts with events without copies has its first
    copy in the rest. *)
Lemma copy_after_prefix (launch seed post : list Event) c : forall pre,
  launch ++ seed = pre ++ Remote c :: post ->
  Forall (fun c => isCopy c = false) (remote_calls launch) ->
  isCopy c = true ->
  exists pre', pre = launch ++ pre' /\ seed = pre' ++ Remote c :: post.
Proof.
  induction launch as [|ev launch IH]; intros pre Hes Hlaunch Hc.
  - by exists pre.
  - destruct pre as [|ev' pre]; simplify_eq/=.
    + inversion Hlaunch; congruence.
    + destruct (IH pre) as (pre' & -> & ->); [done| |done|by exists pre'].
      destruct ev'; [by inversion Hlaunch|done].
Qed.

Lemma copy_not_in_events (es pre post : list Event) c :
  es = pre ++ Remote c :: post ->
  Forall (fun c => isCopy c = false) (remote_calls es) ->
  isCopy c = true ->
  False.
Proof.
  intros -> Hes Hc. rewrite remote_calls_app in Hes.
  apply Forall_app in Hes as [_ Hes]. inversion Hes; congruence.
Qed.

Lemma no_copy_in_filter calls :
  List.filter isCopy calls = [] -> Forall (fun c => isCopy c = false) calls.
Proof.
  induction calls as [|c calls IH]; [constructor|]. cbn.
  destruct (isCopy c) eqn:Hc; [done|]. by constructor; auto.
Qed.

Lemma runContainer_copy_fails k id pc mc img wm idt init w r w' es pre c post e :
  runContainer lib cl k id pc mc img wm idt init w = (r, w', es) ->
  es = pre ++ Remote c :: post ->
  isCopy c = true ->
  callError c = Some e ->
  post = [] /\ r = Some (Wrap e "copy to devcontainer").
Proof.
  intros Hrun Hes Hc Herr.
  assert (Hin : c ∈ List.filter isCopy (remote_calls es)).
  { apply list_elem_of_In, List.filter_In. split; [|done].
    apply list_elem_of_In. rewrite Hes, remote_calls_app. cbn.
    apply elem_of_app. right. left. }
  apply runContainer_run in Hrun.
  destruct Hrun as [| | | | | | | |raw out w1 r w' seed Hconf Hplaced Hraw -> Hseed];
    revert Hin;
    rewrite ?remote_calls_app, ?List.filter_app, ?filter_isCopy_submission,
      ?filter_isCopy_serviceAccount, ?remote_calls_mountWarnings,
      ?remote_calls_resourceLines, ?remote_calls_waitEvents;
    try by intros ?%elem_of_nil.
  intros _. rewrite (app_assoc _ _ seed) in Hes.
  apply copy_after_prefix in Hes as (pre' & -> & Hseed'); [|
    apply no_copy_in_filter;
    by rewrite remote_calls_app, List.filter_app, filter_isCopy_submission|done].
  by eapply copyLoop_fails.
Qed.

Lemma devContainerCall_kind k pc mc img wm labels idt c :
  devContainerCall lib k pc mc img wm labels idt c -> isDelete c = false.
Proof.
  intros [(out & err & ->)|[(pvc & info & err & ->)|[(err & ->)|(init & Hc)]]];
    try done.
  by apply containerCall_kind in Hc as (_ & _ & _ & ? & _).
Qed.

(** C8: a copy that fails is the last thing a run of [RunDevContainer]
    does, and the run returns its error wrapped as the copy error: no
    further copy, nothing undone; no call of a run deletes anything. *)
Theorem copy_failure_aborts (k : kubernetesDriver)
    (parsedConfig : DevContainerConfig) (mergedConfig : MergedDevContainerConfig)
    (imageName workspaceMount : string) (labels : list string)
    (ide : string) (ideOptions : gmap string config2.OptionValue)
    (imageDetails : ImageDetails) (w : W)
    (pre post : list Event) (c : Call) (e : error) :
  let run :=
    RunDevContainer lib cl k parsedConfig mergedConfig imageName workspaceMount
      labels ide ideOptions imageDetails in
  events run w = pre ++ Remote c :: post ->
  isCopy c = true ->
  callError c = Some e ->
  post = []
  /\ result run w = Some (Wrap e "copy to devcontainer")
  /\ Forall (fun c' => isDelete c' = false) (remote_calls (events run w)).
Proof.
  intros run. unfold events, result, run. clear run.
  destruct (RunDevContainer _ _ _ _ _ _ _ _ _ _ _ _) as [[r w'] es] eqn:Hrun.
  cbn [fst snd]. intros Hes Hc Herr.
  assert (Hdel : Forall (fun c' => isDelete c' = false) (remote_calls es)).
  { eapply Forall_impl; [by eapply RunDevContainer_calls|].
    intros c'. apply devContainerCall_kind. }
  enough (post = [] /\ r = Some (Wrap e "copy to devcontainer")) as [? ?] by done.
  clear Hdel.
  assert (Hns : forall ns,
    Forall (fun c => isCopy c = false) (remote_calls (namespaceEvents k ns))).
  { intros ns. apply Forall_forall. by intros c' (? & ? & ->)%namespaceEvents_calls. }
  apply RunDevContainer_run in Hrun.
  destruct Hrun as [e' He|ns pvc info e' w1 Hid Hstep|ns info e' w1 Hid Hstep
                   |ns info w1 r w' es Hid Hstep Hrc|ns pvc info w1 r w' es Hid Hstep Hrc].
  - by destruct pre.
  - exfalso. eapply copy_not_in_events; [done| |done].
    rewrite remote_calls_app, Forall_app. split; [done|by repeat constructor].
  - exfalso. eapply copy_not_in_events; [done| |done].
    rewrite remote_calls_app, Forall_app. split; [done|by repeat constructor].
  - rewrite app_assoc in Hes.
    apply copy_after_prefix in Hes as (pre' & -> & Hes); [| |done].
    + by eapply runContainer_copy_fails.
    + rewrite remote_calls_app, Forall_app. split; [done|by repeat constructor].
  - rewrite app_assoc in Hes.
    apply copy_after_prefix in Hes as (pre' & -> & Hes); [| |done].
    + by eapply runContainer_copy_fails.
    + rewrite remote_calls_app, Forall_app. split; [done|by repeat constructor].
Qed.


(** ** Unsupported mounts *)

Lemma failed_serviceAccount k id e :
  ServiceAccount (config k) <> "" ->
  forallb succeeded (remote_calls (serviceAccountEvents k id (Some e))) = false.
Proof.
  intros Hsa%String.eqb_neq. unfold serviceAccountEvents. by rewrite Hsa.
Qed.

(** A run fails only where a check, a collaborator or the cluster fails:
    the loop over the mounts has no way out. *)
Lemma runContainer_succeeds k id pc mc img wm idt init w r w' es :
  runContainer lib cl k id pc mc img wm idt init w = (r, w', es) ->
  configured lib k mc img wm init ->
  placed lib k ->
  (json_Marshal lib (builtPod lib k id mc img wm idt init)).2 = None ->
  forallb succeeded (remote_calls es) = true ->
  r = None.
Proof.
  intros Hrun%runContainer_run [Ht Hinit] Hplaced Hraw.
  destruct Hrun as [Ht'|e Ht' -> He|e w1 Hconf Hsa|e w1 Hconf Hns He|e w1 Hconf _ He
                   |raw out e w1 Hconf _ Hraw'|raw out e w1 Hconf _ Hraw'
                   |raw out w1 Hconf _ Hraw' ->|raw out w1 r w' seed Hconf _ Hraw' -> Hseed];
    rewrite ?remote_calls_app, ?remote_calls_submissionEvents,
      ?remote_calls_mountWarnings, ?remote_calls_resourceLines,
      ?remote_calls_waitEvents, ?forallb_app, ?andb_true_iff.
  - done.
  - rewrite Hinit in He; done.
  - rewrite failed_serviceAccount by done. by intros [_ ?].
  - rewrite Hplaced in He; done.
  - congruence.
  - by intros [_ ?].
  - by intros [_ ?].
  - done.
  - intros (_ & _ & Hseeded). eapply copyLoop_succeeds; [done|].
    apply Forall_forall. intros c Hc%list_elem_of_In.
    by eapply forallb_forall in Hseeded.
Qed.

(** C7: a declared mount whose type is neither [bind] nor [volume] adds
    nothing to the volume mounts of the submitted pod, where the mounts
    around it keep their slots, and nothing to the mounts that are copied;
    it is warned about, and a run in which every check, collaborator and
    remote call succeeds returns no error. *)
Theorem unsupported_mount_is_skipped (k : kubernetesDriver) (id : string)
    (parsedConfig : DevContainerConfig) (mergedConfig : MergedDevContainerConfig)
    (imageName workspaceMount : string) (imageDetails : ImageDetails)
    (initialize : bool) (w : W) (before after : list Mount) (mount : Mount) :
  Mounts mergedConfig = before ++ mount :: after ->
  supported mount = false ->
  let run :=
    runContainer lib cl k id parsedConfig mergedConfig imageName workspaceMount
      imageDetails initialize in
  let volumeMounts :=
    getVolumeMount 0%Z (ParseMount lib workspaceMount)
    :: declaredVolumeMounts 0%Z before
    ++ declaredVolumeMounts (Z.of_nat (length before) + 1)%Z after in
  let copied :=
    ParseMount lib workspaceMount
    :: List.filter isBind before ++ List.filter isBind after in
  (forall i c,
     remote_calls (events run w) !! i = Some c -> isPodSubmission c = true ->
     exists pod raw out err main,
       c = CRunCommand ["create"; "-f"; "-"] (Some raw) out err
       /\ marshalled lib pod raw
       /\ PodSpec.Containers (Pod.Spec pod) = [main]
       /\ Container.VolumeMounts main = volumeMounts)
  /\ (forall i c,
        remote_calls (events run w) !! i = Some c -> isCopy c = true ->
        exists copyMount out err,
          copyMount ∈ copied /\ c = copyCall lib id parsedConfig copyMount out err)
  /\ (configured lib k mergedConfig imageName workspaceMount initialize ->
      unsupportedWarning lib mount ∈ events run w)
  /\ (configured lib k mergedConfig imageName workspaceMount initialize ->
      placed lib k ->
      (json_Marshal lib (builtPod lib k id mergedConfig imageName workspaceMount
                           imageDetails initialize)).2 = None ->
      forallb succeeded (remote_calls (events run w)) = true ->
      result run w = None).
Proof.
  intros Hmounts Hmount run volumeMounts copied.
  assert (Hvolumes : volumeMountList lib mergedConfig workspaceMount = volumeMounts).
  { unfold volumeMountList, volumeMounts.
    rewrite Hmounts, declaredVolumeMounts_app. cbn [declaredVolumeMounts].
    rewrite Hmount. cbn [app]. do 3 f_equal; lia. }
  assert (Hcopied : copyList lib mergedConfig workspaceMount = copied).
  { unfold copyList, copied. rewrite Hmounts, List.filter_app. cbn [List.filter].
    unfold supported in Hmount. apply orb_false_elim in Hmount as [Hbind _].
    by rewrite Hbind. }
  unfold events, result, run. clear run.
  destruct (runContainer _ _ _ _ _ _ _ _ _ _ _) as [[r w'] es] eqn:Hrun.
  cbn [fst snd]. split; [|split; [|split]].
  - intros i c Hc%list_elem_of_lookup_2 Hsub.
    pose proof (runContainer_calls _ _ _ _ _ _ _ _ _ _ _ _ Hrun) as Hcalls.
    eapply Forall_forall in Hcalls; [|done].
    destruct (containerCall_submission _ _ _ _ _ _ _ _ _ Hcalls Hsub)
      as (raw & out & err & -> & Hraw).
    eexists _, raw, out, err, _. by rewrite <- Hvolumes.
  - intros i c Hc%list_elem_of_lookup_2 Hcopy.
    pose proof (runContainer_calls _ _ _ _ _ _ _ _ _ _ _ _ Hrun) as Hcalls.
    eapply Forall_forall in Hcalls; [|done].
    apply containerCall_kind in Hcalls as (_ & _ & _ & _ & _ & Hcopies).
    rewrite <- Hcopied. by apply Hcopies.
  - intros [Ht Hinit].
    assert (Hwarned : unsupportedWarning lib mount ∈ mountWarnings lib mergedConfig).
    { unfold mountWarnings. apply list_elem_of_In, List.in_map, List.filter_In.
      split; [|by rewrite Hmount]. rewrite Hmounts.
      apply list_elem_of_In, elem_of_app. right. left. }
    apply runContainer_run in Hrun.
    destruct Hrun as [Ht'|e Ht' -> He| | | | | | |]; unfold submissionEvents;
      rewrite ?elem_of_app; try by auto.
    rewrite Hinit in He; done.
  - intros Hconf Hplaced Hraw Hok. by eapply runContainer_succeeds.
Qed.


(** * Further properties of the lifecycle *)

(** ** The first failure ends the run *)

(** In events that start with events whose calls all satisfy [P], a call
    that does not is found in the rest. *)
Lemma call_after_prefix (P : Call -> Prop) (launch rest post : list Event) c :
  forall pre,
  launch ++ rest = pre ++ Remote c :: post ->
  Forall P (remote_calls launch) ->
  ~ P c ->
  exists pre', pre = launch ++ pre' /\ rest = pre' ++ Remote c :: post.
Proof.
  induction launch as [|ev launch IH]; intros pre Hes Hlaunch Hc.
  - by exists pre.
  - destruct pre as [|ev' pre]; simplify_eq/=.
    + by inversion Hlaunch.
    + destruct (IH pre) as (pre' & -> & ->); [done| |done|by exists pre'].
      destruct ev'; [by inversion Hlaunch|done].
Qed.

Lemma call_not_in_events (P : Call -> Prop) (es pre post : list Event) c :
  es = pre ++ Remote c :: post ->
  Forall P (remote_calls es) ->
  ~ P c ->
  False.
Proof.
  intros -> Hes Hc. rewrite remote_calls_app in Hes.
  apply Forall_app in Hes as [_ Hes]. by inversion Hes.
Qed.

Lemma serviceAccountEvents_succeeded k id :
  Forall (fun c => callError c = None) (remote_calls (serviceAccountEvents k id None)).
Proof.
  apply Forall_forall. by intros c [-> _]%serviceAccountEvents_calls.
Qed.

Lemma single_call (c0 c : Call) (pre post : list Event) :
  [Remote c0] = pre ++ Remote c :: post -> pre = [] /\ c = c0 /\ post = [].
Proof. destruct pre as [|? [|? ?]]; intros [=]; by subst. Qed.

Lemma runContainer_failure k id pc mc img wm idt init w r w' es pre c post e :
  runContainer lib cl k id pc mc img wm idt init w = (r, w', es) ->
  es = pre ++ Remote c :: post ->
  callError c = Some e ->
  post = [] /\ r = Some (failureOf c e).
Proof.
  intros Hrun Hes Herr.
  assert (Hfailed : ~ callError c = None) by congruence.
  assert (Hquiet : forall raw out,
    Forall (fun c => callError c = None)
      (remote_calls (submissionEvents lib k id mc raw out None))).
  { intros raw out. rewrite remote_calls_submissionEvents, Forall_app.
    split; [apply serviceAccountEvents_succeeded|by repeat constructor]. }
  apply runContainer_run in Hrun.
  destruct Hrun as [Ht|e0 Ht -> He|e0 w1 Hconf Hsa|e0 w1 Hconf Hns He|e0 w1 Hconf _ He
                   |raw out e0 w1 Hconf _ Hraw|raw out e0 w1 Hconf _ Hraw
                   |raw out w1 Hconf _ Hraw ->|raw out w1 r w' seed Hconf _ Hraw -> Hseed].
  - by destruct pre.
  - by destruct pre.
  - unfold serviceAccountEvents in Hes. apply String.eqb_neq in Hsa. rewrite Hsa in Hes.
    apply (call_after_prefix (fun c => callError c = None)) in Hes
      as (pre' & -> & Hes); [| |done].
    + apply single_call in Hes as (_ & -> & ->). by simplify_eq/=.
    + by rewrite remote_calls_mountWarnings.
  - exfalso. eapply (call_not_in_events (fun c => callError c = None)); [done| |done].
    rewrite !remote_calls_app, remote_calls_mountWarnings, remote_calls_resourceLines.
    rewrite app_nil_r. apply serviceAccountEvents_succeeded.
  - exfalso. eapply (call_not_in_events (fun c => callError c = None)); [done| |done].
    rewrite !remote_calls_app, remote_calls_mountWarnings, remote_calls_resourceLines.
    rewrite app_nil_r. apply serviceAccountEvents_succeeded.
  - replace (submissionEvents lib k id mc raw out (Some e0))
      with ((mountWarnings lib mc ++ serviceAccountEvents k id None
             ++ resourceLines lib k
             ++ [Logged Info ("Create Pod '" +:+ id +:+ "'")])
            ++ [Remote (CRunCommand ["create"; "-f"; "-"] (Some raw) out (Some e0))])
      in Hes by (unfold submissionEvents; by rewrite <- !app_assoc).
    apply (call_after_prefix (fun c => callError c = None)) in Hes
      as (pre' & -> & Hes); [| |done].
    + apply single_call in Hes as (_ & -> & ->). by simplify_eq/=.
    + rewrite !remote_calls_app, remote_calls_mountWarnings, remote_calls_resourceLines.
      cbn. rewrite app_nil_r. apply serviceAccountEvents_succeeded.
  - replace (submissionEvents lib k id mc raw out None ++ waitEvents id (Some e0))
      with ((submissionEvents lib k id mc raw out None
             ++ [Logged Info ("Waiting for DevContainer Pod '" +:+ id +:+ "' to come up...")])
            ++ [Remote (CWaitPodRunning id (Some e0))])
      in Hes by (unfold waitEvents; by rewrite <- !app_assoc).
    apply (call_after_prefix (fun c => callError c = None)) in Hes
      as (pre' & -> & Hes); [| |done].
    + apply single_call in Hes as (_ & -> & ->). by simplify_eq/=.
    + rewrite remote_calls_app, app_nil_r. apply Hquiet.
  - exfalso. eapply (call_not_in_events (fun c => callError c = None)); [done| |done].
    rewrite remote_calls_app, Forall_app. split; [apply Hquiet|by repeat constructor].
  - rewrite app_assoc in Hes.
    apply (call_after_prefix (fun c => callError c = None)) in Hes
      as (pre' & -> & Hes); [| |done].
    + destruct (copyLoop_fails _ _ _ _ _ _ _ _ _ _ _ Hseed Hes Herr) as [-> ->].
      split; [done|]. f_equal.
      destruct (copyLoop_calls _ _ _ _ _ _ _ Hseed) as [n Hn].
      assert (Hc : c ∈ remote_calls seed).
      { rewrite Hes, remote_calls_app. apply elem_of_app. right. left. }
      destruct (list_elem_of_lookup_1 _ _ Hc) as [i Hi].
      by destruct (Forall2_lookup_l _ _ _ _ _ Hn Hi) as (? & _ & ? & ? & ->).
    + rewrite remote_calls_app, Forall_app. split; [apply Hquiet|by repeat constructor].
Qed.

(** X1: in a run of [RunDevContainer] the first remote call that fails,
    other than the creation of the namespace, is the last event of the
    run, and the run returns its error with the context of the operation
    that failed. *)
Theorem first_failure_ends_the_run (k : kubernetesDriver)
    (parsedConfig : DevContainerConfig) (mergedConfig : MergedDevContainerConfig)
    (imageName workspaceMount : string) (labels : list string)
    (ide : string) (ideOptions : gmap string config2.OptionValue)
    (imageDetails : ImageDetails) (w : W)
    (pre post : list Event) (c : Call) (e : error) :
  let run :=
    RunDevContainer lib cl k parsedConfig mergedConfig imageName workspaceMount
      labels ide ideOptions imageDetails in
  events run w = pre ++ Remote c :: post ->
  callError c = Some e ->
  isNamespaceCreation c = false ->
  post = [] /\ result run w = Some (failureOf c e).
Proof.
  intros run. unfold events, result, run. clear run.
  destruct (RunDevContainer _ _ _ _ _ _ _ _ _ _ _ _) as [[r w'] es] eqn:Hrun.
  cbn [fst snd]. intros Hes Herr Hns.
  set (P := fun c : Call => callError c = None \/ isNamespaceCreation c = true).
  assert (Hfailed : ~ P c) by (intros [?|?]; congruence).
  assert (Hnamespace : forall ns, Forall P (remote_calls (namespaceEvents k ns))).
  { intros ns. apply Forall_forall. intros c' (? & ? & ->)%namespaceEvents_calls. by right. }
  apply RunDevContainer_run in Hrun.
  destruct Hrun as [e' He|ns pvc info e' w1 Hid Hstep|ns info e' w1 Hid Hstep
                   |ns info w1 r w' es Hid Hstep Hrc|ns pvc info w1 r w' es Hid Hstep Hrc].
  - by destruct pre.
  - apply (call_after_prefix P) in Hes as (pre' & -> & Hes); [|done..].
    apply single_call in Hes as (_ & -> & ->). by simplify_eq/=.
  - match type of Hes with
    | _ ++ [?lookup; ?create] = _ =>
        change (namespaceEvents k ns ++ [lookup] ++ [create] = pre ++ Remote c :: post)
          in Hes
    end.
    rewrite app_assoc in Hes.
    apply (call_after_prefix P) in Hes as (pre' & -> & Hes); [| |done].
    + apply single_call in Hes as (_ & -> & ->). by simplify_eq/=.
    + rewrite remote_calls_app, Forall_app. split; [done|]. by repeat constructor.
  - rewrite app_assoc in Hes.
    apply (call_after_prefix P) in Hes as (pre' & -> & Hes); [| |done].
    + by eapply runContainer_failure.
    + rewrite remote_calls_app, Forall_app. split; [done|]. by repeat constructor.
  - rewrite app_assoc in Hes.
    apply (call_after_prefix P) in Hes as (pre' & -> & Hes); [| |done].
    + by eapply runContainer_failure.
    + rewrite remote_calls_app, Forall_app. split; [done|]. by repeat constructor.
Qed.


(** ** What a result tells *)

Lemma last_app_Some {A : Type} (l1 l2 : list A) (x : A) :
  last l2 = Some x -> last (l1 ++ l2) = Some x.
Proof. intros Hlast. by rewrite last_app, Hlast. Qed.

Lemma copyLoop_error id pc copyFromLocal : forall (w : W) r w' es,
  copyLoop lib cl id pc copyFromLocal w = (Some r, w', es) ->
  exists c e,
    last (remote_calls es) = Some c /\ callError c = Some e
    /\ isNamespaceCreation c = false /\ r = failureOf c e.
Proof.
  induction copyFromLocal as [|copyMount rest IH]; intros w r w' es; [done|].
  rewrite copyLoop_cons.
  destruct (k_runCommandWithDir _ _ _ _ _) as [[out [e|]] w1].
  - intros [= <- <- <-]. by eexists _, e.
  - destruct (copyLoop lib cl id pc rest w1) as [[r1 w1'] es1] eqn:Hrest.
    intros [= -> <- <-]. destruct (IH _ _ _ _ Hrest) as (c & e & Hlast & ?).
    exists c, e. split; [|done]. cbn.
    change (last ([copyCall lib id pc copyMount out None] ++ remote_calls es1) = Some c).
    by apply last_app_Some.
Qed.

Lemma runContainer_success k id pc mc img wm idt init w w' es :
  runContainer lib cl k id pc mc img wm idt init w = (None, w', es) ->
  Forall (fun c => callError c = None) (remote_calls es)
  /\ exists raw out,
       marshalled lib (builtPod lib k id mc img wm idt init) raw
       /\ CRunCommand ["create"; "-f"; "-"] (Some raw) out None ∈ remote_calls es
       /\ CWaitPodRunning id None ∈ remote_calls es.
Proof.
  intros Hrun%runContainer_run.
  inversion Hrun as [| | | | | |
                    |raw out w1 Hconf Hplaced Hraw Hinit
                    |raw out w1 r w1' seed Hconf Hplaced Hraw Hinit Hseed]; subst;
    rewrite ?remote_calls_app, remote_calls_submissionEvents, remote_calls_waitEvents.
  - split.
    + rewrite !Forall_app. repeat split; try by repeat constructor.
      apply serviceAccountEvents_succeeded.
    + exists raw, out. split; [done|]. rewrite !elem_of_app, !list_elem_of_singleton.
      by auto.
  - split.
    + rewrite !Forall_app. repeat split; try by repeat constructor.
      * apply serviceAccountEvents_succeeded.
      * apply copyLoop_done in Hseed. apply Forall_forall. intros c Hc.
        destruct (list_elem_of_lookup_1 _ _ Hc) as [i Hi].
        by destruct (Forall2_lookup_l _ _ _ _ _ Hseed Hi) as (? & _ & ? & ->).
    + exists raw, out. split; [done|]. rewrite !elem_of_app, !list_elem_of_singleton.
      by auto.
Qed.

(** X2: when [RunDevContainer] returns no error, the pod it built was
    submitted and the wait for it succeeded, and no remote call of the run
    failed, the creation of the namespace apart. *)
Theorem success_means_pod_is_up (k : kubernetesDriver)
    (parsedConfig : DevContainerConfig) (mergedConfig : MergedDevContainerConfig)
    (imageName workspaceMount : string) (labels : list string)
    (ide : string) (ideOptions : gmap string config2.OptionValue)
    (imageDetails : ImageDetails) (w : W) :
  let run :=
    RunDevContainer lib cl k parsedConfig mergedConfig imageName workspaceMount
      labels ide ideOptions imageDetails in
  let calls := remote_calls (events run w) in
  result run w = None ->
  Forall (fun c => isNamespaceCreation c = true \/ callError c = None) calls
  /\ exists initialize raw out,
       marshalled lib
         (builtPod lib k (getID lib k labels).1 mergedConfig imageName workspaceMount
            imageDetails initialize) raw
       /\ CRunCommand ["create"; "-f"; "-"] (Some raw) out None ∈ calls
       /\ CWaitPodRunning (getID lib k labels).1 None ∈ calls.
Proof.
  intros run calls. unfold calls, events, result, run. clear run calls.
  destruct (RunDevContainer _ _ _ _ _ _ _ _ _ _ _ _) as [[r w'] es] eqn:Hrun.
  cbn [fst snd]. intros ->.
  assert (Hnamespace : forall ns,
    Forall (fun c => isNamespaceCreation c = true \/ callError c = None)
      (remote_calls (namespaceEvents k ns))).
  { intros ns. apply Forall_forall. intros c' (? & ? & ->)%namespaceEvents_calls. by left. }
  apply RunDevContainer_run in Hrun.
  inversion Hrun as [| | |ns info w1 r w1' es1 Hid Hstep Hrc
                    |ns pvc info w1 r w1' es1 Hid Hstep Hrc]; subst;
    destruct (runContainer_success _ _ _ _ _ _ _ _ _ _ _ Hrc)
      as (Hok & raw & out & Hraw & Hsubmit & Hwait);
    rewrite !remote_calls_app, !Forall_app.
  - split.
    + repeat split; [done|by repeat constructor|].
      eapply Forall_impl; [done|]. by right.
    + exists true, raw, out. rewrite !elem_of_app. by auto.
  - split.
    + repeat split; [done|by repeat constructor|].
      eapply Forall_impl; [done|]. by right.
    + exists false, raw, out. rewrite !elem_of_app. by auto.
Qed.

Lemma runContainer_cause k id pc mc img wm idt init w r w' es :
  runContainer lib cl k id pc mc img wm idt init w = (Some r, w', es) ->
  (Target (ParseMount lib wm) = "" /\ r = New "workspace mount target is empty")
  \/ (exists e, init = true /\ (getInitContainer lib k mc img).2 = Some e
                /\ r = Wrap e "build init container")
  \/ (exists e, NodeSelector (config k) <> ""
                /\ (parseLabels lib (NodeSelector (config k))).2 = Some e
                /\ r = Wrap e "parsing node selector")
  \/ (json_Marshal lib (builtPod lib k id mc img wm idt init)).2 = Some r
  \/ (exists c e,
        last (remote_calls es) = Some c /\ callError c = Some e
        /\ isNamespaceCreation c = false /\ r = failureOf c e).
Proof.
  intros Hrun%runContainer_run.
  inversion Hrun as [Ht|e0 Ht Hinit He|e0 w1 Hconf Hsa|e0 w1 Hconf Hns He|e0 w1 Hconf _ He
                    |raw out e0 w1 Hconf _ Hraw|raw out e0 w1 Hconf _ Hraw
                    |
                    |raw out w1 r1 w1' seed Hconf _ Hraw Hinit Hseed]; subst.
  - by left.
  - right; left. by eauto.
  - do 4 right. eexists _, _. rewrite remote_calls_app, remote_calls_mountWarnings.
    unfold serviceAccountEvents. apply String.eqb_neq in Hsa. by rewrite Hsa.
  - do 2 right; left. by eauto.
  - by do 3 right; left.
  - do 4 right. eexists _, _. rewrite remote_calls_submissionEvents, last_snoc. done.
  - do 4 right. eexists _, _.
    rewrite remote_calls_app, remote_calls_waitEvents, last_snoc. done.
  - do 4 right. destruct (copyLoop_error _ _ _ _ _ _ _ Hseed) as (c & e & Hlast & ?).
    exists c, e. split; [|done]. rewrite !remote_calls_app. by do 2 apply last_app_Some.
Qed.

(** X3: an error that [RunDevContainer] returns is the error of the
    identity, the rejection of an empty workspace target, the error of the
    init container or of the node selector with its context, the error of
    the serializer, or the error of the last remote call of the run with the
    context of that call. *)
Theorem every_error_has_a_cause (k : kubernetesDriver)
    (parsedConfig : DevContainerConfig) (mergedConfig : MergedDevContainerConfig)
    (imageName workspaceMount : string) (labels : list string)
    (ide : string) (ideOptions : gmap string config2.OptionValue)
    (imageDetails : ImageDetails) (w : W) (r : error) :
  let run :=
    RunDevContainer lib cl k parsedConfig mergedConfig imageName workspaceMount
      labels ide ideOptions imageDetails in
  result run w = Some r ->
  (getID lib k labels).2 = Some r
  \/ (Target (ParseMount lib workspaceMount) = ""
      /\ r = New "workspace mount target is empty")
  \/ (exists e, (getInitContainer lib k mergedConfig imageName).2 = Some e
                /\ r = Wrap e "build init container")
  \/ (exists e, NodeSelector (config k) <> ""
                /\ (parseLabels lib (NodeSelector (config k))).2 = Some e
                /\ r = Wrap e "parsing node selector")
  \/ (exists initialize,
        (json_Marshal lib
           (builtPod lib k (getID lib k labels).1 mergedConfig imageName
              workspaceMount imageDetails initialize)).2 = Some r)
  \/ (exists c e,
        last (remote_calls (events run w)) = Some c /\ callError c = Some e
        /\ isNamespaceCreation c = false /\ r = failureOf c e).
Proof.
  intros run. unfold events, result, run. clear run.
  destruct (RunDevContainer _ _ _ _ _ _ _ _ _ _ _ _) as [[r0 w'] es] eqn:Hrun.
  cbn [fst snd]. intros ->.
  apply RunDevContainer_run in Hrun.
  inversion Hrun as [e' He|ns pvc info e' w1 Hid Hstep|ns info e' w1 Hid Hstep
                    |ns info w1 r1 w1' es1 Hid Hstep Hrc
                    |ns pvc info w1 r1 w1' es1 Hid Hstep Hrc]; subst.
  - by left.
  - do 5 right. eexists _, _. rewrite remote_calls_app.
    split; [by apply last_app_Some|done].
  - do 5 right. eexists _, _. rewrite remote_calls_app.
    split; [by apply last_app_Some|done].
  - destruct (runContainer_cause _ _ _ _ _ _ _ _ _ _ _ _ Hrc)
      as [?|[(e & _ & ? & ?)|[?|[?|(c & e & Hlast & ?)]]]]; [by auto|by eauto 10..|].
    do 5 right. exists c, e. split; [|done].
    rewrite !remote_calls_app. by do 2 apply last_app_Some.
  - destruct (runContainer_cause _ _ _ _ _ _ _ _ _ _ _ _ Hrc)
      as [?|[(e & _ & ? & ?)|[?|[?|(c & e & Hlast & ?)]]]]; [by auto|by eauto 10..|].
    do 5 right. exists c, e. split; [|done].
    rewrite !remote_calls_app. by do 2 apply last_app_Some.
Qed.


(** ** The order of the remote calls *)

Lemma sorted_by_stage (a : nat) (l1 l2 : list Call) :
  StronglySorted precedes l1 ->
  StronglySorted precedes l2 ->
  Forall (fun c => stage c <= a) l1 ->
  Forall (fun c => a < stage c) l2 ->
  StronglySorted precedes (l1 ++ l2).
Proof.
  intros Hl1 Hl2 Hlow Hhigh. apply StronglySorted_app_2; [|done..].
  intros c1 c2 Hc1 Hc2. left.
  eapply Forall_forall in Hlow; [|done]. eapply Forall_forall in Hhigh; [|done]. lia.
Qed.

Lemma at_most_one_sorted (l : list Call) : length l <= 1 -> StronglySorted precedes l.
Proof.
  destruct l as [|c [|c' l]]; cbn; [constructor|by repeat constructor|lia].
Qed.

Lemma copies_sorted (l : list Call) :
  Forall (fun c => isCopy c = true) l -> StronglySorted precedes l.
Proof.
  induction 1 as [|c l Hc Hl IH]; constructor; [done|].
  eapply Forall_impl; [done|]. intros c' Hc'. by right.
Qed.

Lemma serviceAccount_stage k id err :
  length (remote_calls (serviceAccountEvents k id err)) <= 1
  /\ Forall (fun c => stage c = 3) (remote_calls (serviceAccountEvents k id err)).
Proof.
  unfold serviceAccountEvents.
  destruct (String.eqb (ServiceAccount (config k)) ""); cbn; split;
    by repeat constructor.
Qed.

Lemma namespace_stage k ns :
  length (remote_calls (namespaceEvents k ns)) <= 1
  /\ Forall (fun c => stage c = 0) (remote_calls (namespaceEvents k ns)).
Proof. destruct ns as [[out [e|]]|]; cbn; split; by repeat constructor. Qed.

Lemma copyLoop_stage id pc copyFromLocal (w : W) r w' es :
  copyLoop lib cl id pc copyFromLocal w = (r, w', es) ->
  Forall (fun c => isCopy c = true /\ stage c = 6) (remote_calls es).
Proof.
  intros [n Hn]%copyLoop_calls. apply Forall_forall. intros c Hc.
  destruct (list_elem_of_lookup_1 _ _ Hc) as [i Hi].
  by destruct (Forall2_lookup_l _ _ _ _ _ Hn Hi) as (? & _ & ? & ? & ->).
Qed.

Lemma runContainer_sorted k id pc mc img wm idt init w r w' es :
  runContainer lib cl k id pc mc img wm idt init w = (r, w', es) ->
  StronglySorted precedes (remote_calls es)
  /\ Forall (fun c => 2 < stage c) (remote_calls es).
Proof.
  intros Hrun%runContainer_run.
  assert (Hsa : forall err,
    StronglySorted precedes (remote_calls (serviceAccountEvents k id err))
    /\ Forall (fun c => stage c <= 3) (remote_calls (serviceAccountEvents k id err))
    /\ Forall (fun c => 2 < stage c) (remote_calls (serviceAccountEvents k id err))).
  { intros err. destruct (serviceAccount_stage k id err) as [Hlen Hstage].
    split; [by apply at_most_one_sorted|].
    split; (eapply Forall_impl; [done|]); intros c' Hc'; cbv beta in Hc' |- *; lia. }
  assert (Hsubmit : forall raw out err,
    StronglySorted precedes (remote_calls (submissionEvents lib k id mc raw out err))
    /\ Forall (fun c => stage c <= 4)
         (remote_calls (submissionEvents lib k id mc raw out err))
    /\ Forall (fun c => 2 < stage c)
         (remote_calls (submissionEvents lib k id mc raw out err))).
  { intros raw out err. destruct (Hsa None) as (Hsorted & Hlow & Hhigh).
    rewrite remote_calls_submissionEvents. split; [|split].
    - apply (sorted_by_stage 3); [done|by repeat constructor|done|].
      repeat constructor; cbn; lia.
    - apply Forall_app. split; [|repeat constructor; cbn; lia].
      eapply Forall_impl; [exact Hlow|]. intros c' Hc'; cbv beta in Hc' |- *; lia.
    - apply Forall_app. split; [done|]. repeat constructor; cbn; lia. }
  assert (Hwait : forall raw out err,
    StronglySorted precedes
      (remote_calls (submissionEvents lib k id mc raw out None)
       ++ remote_calls (waitEvents id err))
    /\ Forall (fun c => stage c <= 5)
         (remote_calls (submissionEvents lib k id mc raw out None)
          ++ remote_calls (waitEvents id err))
    /\ Forall (fun c => 2 < stage c)
         (remote_calls (submissionEvents lib k id mc raw out None)
          ++ remote_calls (waitEvents id err))).
  { intros raw out err. destruct (Hsubmit raw out None) as (Hsorted & Hlow & Hhigh).
    rewrite remote_calls_waitEvents. split; [|split].
    - apply (sorted_by_stage 4); [done|by repeat constructor|done|].
      repeat constructor; cbn; lia.
    - apply Forall_app. split; [|repeat constructor; cbn; lia].
      eapply Forall_impl; [exact Hlow|]. intros c' Hc'; cbv beta in Hc' |- *; lia.
    - apply Forall_app. split; [done|]. repeat constructor; cbn; lia. }
  destruct Hrun as [| |e w1 Hconf Hne| | | | | |raw out w1 r w' seed Hconf Hplaced Hraw -> Hseed];
    rewrite ?remote_calls_app, ?remote_calls_mountWarnings, ?remote_calls_resourceLines,
      ?app_nil_r; cbn [app].
  - split; constructor.
  - split; constructor.
  - by destruct (Hsa (Some e)) as (? & _ & ?).
  - by destruct (Hsa None) as (? & _ & ?).
  - by destruct (Hsa None) as (? & _ & ?).
  - by destruct (Hsubmit raw out (Some e)) as (? & _ & ?).
  - by destruct (Hwait raw out (Some e)) as (? & _ & ?).
  - by destruct (Hwait raw out None) as (? & _ & ?).
  - destruct (Hwait raw out None) as (Hsorted & Hlow & Hhigh).
    apply copyLoop_stage in Hseed. rewrite app_assoc. split.
    + apply (sorted_by_stage 5); [done| |done|].
      * apply copies_sorted. eapply Forall_impl; [done|]. by intros c [? _].
      * eapply Forall_impl; [done|]. intros c [_ ->]. lia.
    + apply Forall_app. split; [done|].
      eapply Forall_impl; [done|]. intros c [_ ->]. lia.
Qed.

(** X4: the remote calls of a run of [RunDevContainer] follow the
    lifecycle: namespace, volume lookup, volume creation, service account,
    pod submission, wait, copies.  Whatever fails, no step is repeated and
    none comes before an earlier one; only copies come several times. *)
Theorem calls_follow_the_lifecycle (k : kubernetesDriver)
    (parsedConfig : DevContainerConfig) (mergedConfig : MergedDevContainerConfig)
    (imageName workspaceMount : string) (labels : list string)
    (ide : string) (ideOptions : gmap string config2.OptionValue)
    (imageDetails : ImageDetails) (w : W) :
  StronglySorted precedes
    (remote_calls
       (events (RunDevContainer lib cl k parsedConfig mergedConfig imageName
                  workspaceMount labels ide ideOptions imageDetails) w)).
Proof.
  unfold events.
  destruct (RunDevContainer _ _ _ _ _ _ _ _ _ _ _ _) as [[r w'] es] eqn:Hrun.
  cbn [snd]. apply RunDevContainer_run in Hrun.
  assert (Hns : forall ns,
    StronglySorted precedes (remote_calls (namespaceEvents k ns))
    /\ Forall (fun c => stage c <= 0) (remote_calls (namespaceEvents k ns))).
  { intros ns. destruct (namespace_stage k ns) as [Hlen Hstage].
    split; [by apply at_most_one_sorted|].
    eapply Forall_impl; [done|]. intros c' Hc'; cbv beta in Hc' |- *; lia. }
  destruct Hrun as [e He|ns pvc info e w1 Hid Hstep|ns info e w1 Hid Hstep
                   |ns info w1 r w' es Hid Hstep Hrc|ns pvc info w1 r w' es Hid Hstep Hrc];
    rewrite ?remote_calls_app; try destruct (Hns ns) as [Hsorted Hlow].
  - constructor.
  - apply (sorted_by_stage 0); [done|by repeat constructor|done|].
    repeat constructor; cbn; lia.
  - apply (sorted_by_stage 0); [done| |done|].
    + repeat constructor; left; cbn; lia.
    + repeat constructor; cbn; lia.
  - destruct (runContainer_sorted _ _ _ _ _ _ _ _ _ _ _ _ Hrc) as [Hrun Hhigh].
    apply (sorted_by_stage 0); [done| |done|].
    + apply (sorted_by_stage 2 [_; _]); [|done| |done].
      * repeat constructor; left; cbn; lia.
      * repeat constructor; cbn; lia.
    + apply Forall_app. split; [repeat constructor; cbn; lia|].
      eapply Forall_impl; [done|]. intros c' Hc'; cbv beta in Hc' |- *; lia.
  - destruct (runContainer_sorted _ _ _ _ _ _ _ _ _ _ _ _ Hrc) as [Hrun Hhigh].
    apply (sorted_by_stage 0); [done| |done|].
    + apply (sorted_by_stage 2 [_]); [by repeat constructor|done| |done].
      repeat constructor; cbn; lia.
    + apply Forall_app. split; [repeat constructor; cbn; lia|].
      eapply Forall_impl; [done|]. intros c' Hc'; cbv beta in Hc' |- *; lia.
Qed.


(** ** The namespace *)

(** X5: once the identity is derived, the volume is looked up whatever
    became of the namespace: when the driver has a namespace to create, the
    creation is the first remote call and the lookup the second, and an error
    of the creation is only logged; otherwise the lookup is the first. *)
Theorem namespace_failure_is_swallowed (k : kubernetesDriver)
    (parsedConfig : DevContainerConfig) (mergedConfig : MergedDevContainerConfig)
    (imageName workspaceMount : string) (labels : list string)
    (ide : string) (ideOptions : gmap string config2.OptionValue)
    (imageDetails : ImageDetails) (w : W) :
  let run :=
    RunDevContainer lib cl k parsedConfig mergedConfig imageName workspaceMount
      labels ide ideOptions imageDetails in
  let calls := remote_calls (events run w) in
  (getID lib k labels).2 = None ->
  exists pvc info err,
    (namespace k <> "" /\ CreateNamespace (config k) = "true" ->
     exists out nsErr,
       calls !! 0 = Some (CRunCommand ["create"; "ns"; namespace k] None out nsErr)
       /\ calls !! 1 = Some (CGetDevContainerPvc (getID lib k labels).1 pvc info err)
       /\ forall e, nsErr = Some e ->
            Logged Debug ("Error creating namespace: " +:+ Error e) ∈ events run w)
    /\ (~ (namespace k <> "" /\ CreateNamespace (config k) = "true") ->
        calls !! 0 = Some (CGetDevContainerPvc (getID lib k labels).1 pvc info err)).
Proof.
  intros run calls. unfold calls, events, run. clear run calls.
  destruct (RunDevContainer _ _ _ _ _ _ _ _ _ _ _ _) as [[r w'] es] eqn:Hrun.
  cbn [snd]. intros Hid.
  assert (Hshape : forall ns pvc info err rest,
    namespaceStep k ns ->
    (namespace k <> "" /\ CreateNamespace (config k) = "true" ->
     exists out nsErr,
       remote_calls (namespaceEvents k ns
                     ++ Remote (CGetDevContainerPvc (getID lib k labels).1 pvc info err)
                        :: rest) !! 0
         = Some (CRunCommand ["create"; "ns"; namespace k] None out nsErr)
       /\ remote_calls (namespaceEvents k ns
                        ++ Remote (CGetDevContainerPvc (getID lib k labels).1 pvc info err)
                           :: rest) !! 1
          = Some (CGetDevContainerPvc (getID lib k labels).1 pvc info err)
       /\ forall e, nsErr = Some e ->
            Logged Debug ("Error creating namespace: " +:+ Error e)
            ∈ namespaceEvents k ns
              ++ Remote (CGetDevContainerPvc (getID lib k labels).1 pvc info err) :: rest)
    /\ (~ (namespace k <> "" /\ CreateNamespace (config k) = "true") ->
        remote_calls (namespaceEvents k ns
                      ++ Remote (CGetDevContainerPvc (getID lib k labels).1 pvc info err)
                         :: rest) !! 0
          = Some (CGetDevContainerPvc (getID lib k labels).1 pvc info err))).
  { intros ns pvc info err rest Hstep. split.
    - intros Hconf. apply Hstep in Hconf as [[out nsErr] ->]. exists out, nsErr.
      destruct nsErr as [e|]; (split; [done|]); (split; [done|]); intros e' [=]; subst.
      apply elem_of_app. left. cbn. by do 2 right; left.
    - intros Hconf. destruct ns as [answer|]; [|done].
      destruct Hconf. by apply Hstep. }
  apply RunDevContainer_run in Hrun.
  destruct Hrun as [e He|ns pvc info e w1 _ Hstep|ns info e w1 _ Hstep
                   |ns info w1 r w' es _ Hstep Hrc|ns pvc info w1 r w' es _ Hstep Hrc].
  - congruence.
  - eexists pvc, info, _. by apply Hshape.
  - eexists None, info, _. by apply Hshape.
  - eexists None, info, _. by apply Hshape.
  - eexists (Some pvc), info, _. by apply Hshape.
Qed.

(** ** Restart through [StartDevContainer] *)

(** X6: restarting through [StartDevContainer] is restarting through
    [RunDevContainer]: when the lookup finds the volume with the snapshot of
    the configuration, no namespace is to be created and the identity is the
    one of the labels, both do the same and return the same. *)
Theorem Start_is_the_restart_of_Run (k : kubernetesDriver) (id : string)
    (parsedConfig : DevContainerConfig) (mergedConfig : MergedDevContainerConfig)
    (imageName workspaceMount : string) (labels startLabels snapshotLabels : list string)
    (ide : string) (ideOptions : gmap string config2.OptionValue)
    (imageDetails : ImageDetails) (w w1 : W) (pvc : PersistentVolumeClaim.t) :
  getID lib k labels = (id, None) ->
  ~ (namespace k <> "" /\ CreateNamespace (config k) = "true") ->
  k_getDevContainerPvc cl id w =
    (Some pvc,
     Some {| ParsedConfig := parsedConfig; MergedConfig := mergedConfig;
             ImageDetails_ := imageDetails; ImageName := imageName;
             WorkspaceMount := workspaceMount; Labels := snapshotLabels |},
     None, w1) ->
  StartDevContainer lib cl k id startLabels w =
  RunDevContainer lib cl k parsedConfig mergedConfig imageName workspaceMount
    labels ide ideOptions imageDetails w.
Proof.
  intros Hid Hns Hlookup. unfold StartDevContainer, RunDevContainer. rewrite Hid.
  assert (negb (String.eqb (namespace k) "")
          && String.eqb (CreateNamespace (config k)) "true" = false) as ->.
  { destruct (String.eqb_spec (namespace k) ""); [done|].
    destruct (String.eqb_spec (CreateNamespace (config k)) "true"); [|done].
    by destruct Hns. }
  unfold bind, ret, getDevContainerPvc. rewrite Hlookup. cbn.
  destruct (runContainer _ _ _ _ _ _ _ _ _ _ _) as [[[e|] w'] es];
    by rewrite ?app_nil_r.
Qed.

(** X7: a pod that [StartDevContainer] submits is built from the snapshot
    the lookup returned, not from anything else: its image and its volume
    mounts are those of the snapshot, it is named by [id], and it has no init
    container. *)
Theorem Start_builds_the_pod_from_the_snapshot (k : kubernetesDriver) (id : string)
    (labels : list string) (w : W) (i : nat) (c : Call) :
  let calls := remote_calls (events (StartDevContainer lib cl k id labels) w) in
  calls !! i = Some c ->
  isPodSubmission c = true ->
  exists pvc info pod raw out err main,
    calls !! 0 = Some (CGetDevContainerPvc id pvc (Some info) None)
    /\ c = CRunCommand ["create"; "-f"; "-"] (Some raw) out err
    /\ marshalled lib pod raw
    /\ Pod.Name pod = id
    /\ PodSpec.InitContainers (Pod.Spec pod) = []
    /\ PodSpec.Containers (Pod.Spec pod) = [main]
    /\ Container.Image main = ImageName info
    /\ Container.VolumeMounts main =
         getVolumeMount 0%Z (ParseMount lib (WorkspaceMount info))
         :: declaredVolumeMounts 0%Z (Mounts (MergedConfig info)).
Proof.
  intros calls. unfold calls, events, StartDevContainer, bind, getDevContainerPvc.
  clear calls.
  destruct (k_getDevContainerPvc cl id w) as [[[pvc info] [e|]] w1];
    cbv beta iota zeta.
  { cbn. intros Hc%list_elem_of_lookup_2 Hsub.
    apply list_elem_of_singleton in Hc as ->. done. }
  destruct info as [info|].
  2:{ cbn. intros Hc%list_elem_of_lookup_2 Hsub.
      apply list_elem_of_singleton in Hc as ->. done. }
  destruct (runContainer _ _ _ _ _ _ _ _ _ _ _) as [[r w'] es] eqn:Hrun.
  cbn. intros Hc%list_elem_of_lookup_2 Hsub.
  apply elem_of_cons in Hc as [->|Hc]; [done|].
  apply runContainer_calls in Hrun. eapply Forall_forall in Hrun; [|done].
  destruct (containerCall_submission _ _ _ _ _ _ _ _ _ Hrun Hsub)
    as (raw & out & err & -> & Hraw).
  by eexists pvc, info, _, raw, out, err, _.
Qed.


(** ** The parts of the submitted pod *)

Lemma existsb_none {A : Type} (f : A -> bool) (l : list A) :
  Forall (fun x => f x = false) l -> existsb f l = false.
Proof. induction 1 as [|x l Hx _ IH]; [done|]. cbn. by rewrite Hx, IH. Qed.

(** X8: in a run of [RunDevContainer] the submitted pod carries the init
    containers of [getInitContainer] exactly when the run created the
    volume; a run that found the volume submits a pod without any. *)
Theorem init_containers_only_on_first_run (k : kubernetesDriver)
    (parsedConfig : DevContainerConfig) (mergedConfig : MergedDevContainerConfig)
    (imageName workspaceMount : string) (labels : list string)
    (ide : string) (ideOptions : gmap string config2.OptionValue)
    (imageDetails : ImageDetails) (w : W) (i : nat) (c : Call) :
  let calls :=
    remote_calls
      (events (RunDevContainer lib cl k parsedConfig mergedConfig imageName
                 workspaceMount labels ide ideOptions imageDetails) w) in
  calls !! i = Some c ->
  isPodSubmission c = true ->
  exists pod raw out err,
    c = CRunCommand ["create"; "-f"; "-"] (Some raw) out err
    /\ marshalled lib pod raw
    /\ PodSpec.InitContainers (Pod.Spec pod) =
         if existsb isVolumeCreation calls
         then (getInitContainer lib k mergedConfig imageName).1
         else [].
Proof.
  intros calls. unfold calls, events. clear calls.
  destruct (RunDevContainer _ _ _ _ _ _ _ _ _ _ _ _) as [[r w'] es] eqn:Hrun.
  cbn [snd]. intros Hc%list_elem_of_lookup_2 Hsub.
  assert (Hns : forall ns, existsb isVolumeCreation (remote_calls (namespaceEvents k ns)) = false).
  { intros ns. apply existsb_none, Forall_forall.
    by intros c' (? & ? & ->)%namespaceEvents_calls. }
  assert (Hnosub : forall ns, c ∈ remote_calls (namespaceEvents k ns) -> False).
  { intros ns (? & ? & ->)%namespaceEvents_calls. done. }
  apply RunDevContainer_run in Hrun.
  destruct Hrun as [e He|ns pvc info e w1 _ Hstep|ns info e w1 _ Hstep
                   |ns info w1 r w' es _ Hstep Hrc|ns pvc info w1 r w' es _ Hstep Hrc];
    revert Hc; rewrite ?remote_calls_app, ?existsb_app, ?Hns;
    cbn [remote_calls omap list_omap existsb isVolumeCreation orb];
    rewrite ?elem_of_app, ?elem_of_cons, ?elem_of_nil; intros Hc;
    repeat match goal with Hor : _ \/ _ |- _ => destruct Hor as [Hor|Hor] end;
    try done; try (by destruct (Hnosub _ Hc)); try (by subst c).
  - pose proof (runContainer_calls _ _ _ _ _ _ _ _ _ _ _ _ Hrc) as Hcalls.
    eapply Forall_forall in Hcalls; [|done].
    destruct (containerCall_submission _ _ _ _ _ _ _ _ _ Hcalls Hsub)
      as (raw & out & err & -> & Hraw).
    by eexists _, raw, out, err.
  - pose proof (runContainer_calls _ _ _ _ _ _ _ _ _ _ _ _ Hrc) as Hcalls.
    assert (existsb isVolumeCreation (remote_calls es) = false) as ->.
    { apply existsb_none. eapply Forall_impl; [done|].
      by intros c' (_ & ? & _)%containerCall_kind. }
    eapply Forall_forall in Hcalls; [|done].
    destruct (containerCall_submission _ _ _ _ _ _ _ _ _ Hcalls Hsub)
      as (raw & out & err & -> & Hraw).
    by eexists _, raw, out, err.
Qed.

(** The remote calls of [runContainer]: the service account, then the pod,
    then calls that submit nothing. *)
Lemma runContainer_calls_shape k id pc mc img wm idt init w r w' es :
  runContainer lib cl k id pc mc img wm idt init w = (r, w', es) ->
  Forall (fun c => isPodSubmission c = false) (remote_calls es)
  \/ exists raw out err rest,
       marshalled lib (builtPod lib k id mc img wm idt init) raw
       /\ remote_calls es =
            remote_calls (serviceAccountEvents k id None)
            ++ CRunCommand ["create"; "-f"; "-"] (Some raw) out err :: rest
       /\ Forall (fun c => isPodSubmission c = false) rest.
Proof.
  intros Hrun%runContainer_run.
  assert (Hsa : forall err,
    Forall (fun c => isPodSubmission c = false)
      (remote_calls (serviceAccountEvents k id err))).
  { intros err. apply Forall_forall. by intros c [-> _]%serviceAccountEvents_calls. }
  destruct Hrun as [| | | | |raw out e w1 Hconf Hplaced Hraw|raw out e w1 Hconf Hplaced Hraw
                   |raw out w1 Hconf Hplaced Hraw Hinit
                   |raw out w1 r w' seed Hconf Hplaced Hraw Hinit Hseed];
    rewrite ?remote_calls_app, ?remote_calls_submissionEvents,
      ?remote_calls_mountWarnings, ?remote_calls_resourceLines,
      ?remote_calls_waitEvents, ?app_nil_r; cbn [app];
    try (left; by first [constructor|apply Hsa]).
  - right. by exists raw, out, (Some e), [].
  - right. exists raw, out, None, [CWaitPodRunning id (Some e)].
    rewrite <- app_assoc. by repeat split; repeat constructor.
  - right. exists raw, out, None, [CWaitPodRunning id None].
    rewrite <- app_assoc. by repeat split; repeat constructor.
  - right. exists raw, out, None, (CWaitPodRunning id None :: remote_calls seed).
    rewrite <- !app_assoc. split; [done|]. split; [done|]. constructor; [done|].
    apply copyLoop_stage in Hseed. eapply Forall_impl; [done|].
    intros c [_ Hstage]. unfold stage in Hstage.
    destruct (isPodSubmission c); [|done]. by repeat case_match.
Qed.

(** X9: when a service account is configured, the pod is submitted only
    after the account was created without error, as the second remote call
    of [runContainer], and it runs under that account; when none is
    configured the submission is the first remote call and the pod names no
    account. *)
Theorem service_account_comes_before_the_pod (k : kubernetesDriver) (id : string)
    (parsedConfig : DevContainerConfig) (mergedConfig : MergedDevContainerConfig)
    (imageName workspaceMount : string) (imageDetails : ImageDetails)
    (initialize : bool) (w : W) (i : nat) (c : Call) :
  let calls :=
    remote_calls (events (runContainer lib cl k id parsedConfig mergedConfig imageName
                            workspaceMount imageDetails initialize) w) in
  calls !! i = Some c ->
  isPodSubmission c = true ->
  exists pod raw out err,
    c = CRunCommand ["create"; "-f"; "-"] (Some raw) out err
    /\ marshalled lib pod raw
    /\ PodSpec.ServiceAccountName (Pod.Spec pod) = ServiceAccount (config k)
    /\ if String.eqb (ServiceAccount (config k)) "" then i = 0
       else i = 1
            /\ calls !! 0 =
                 Some (CCreateServiceAccount id (ServiceAccount (config k)) None).
Proof.
  intros calls. unfold calls, events. clear calls.
  destruct (runContainer _ _ _ _ _ _ _ _ _ _ _) as [[r w'] es] eqn:Hrun.
  cbn [snd]. intros Hc Hsub.
  destruct (runContainer_calls_shape _ _ _ _ _ _ _ _ _ _ _ _ Hrun)
    as [Hnone|(raw & out & err & rest & Hraw & Hcalls & Hrest)].
  { apply list_elem_of_lookup_2 in Hc. eapply Forall_forall in Hnone; [|done].
    congruence. }
  rewrite Hcalls in Hc |- *. clear Hcalls.
  assert (Hlater : forall j, rest !! j = Some c -> False).
  { intros j Hj%list_elem_of_lookup_2. eapply Forall_forall in Hrest; [|done].
    congruence. }
  revert Hc. unfold serviceAccountEvents.
  destruct (String.eqb (ServiceAccount (config k)) ""); cbn.
  - destruct i as [|i]; cbn; [|by intros ?%Hlater].
    intros [= <-]. by eexists _, raw, out, err.
  - destruct i as [|[|i]]; cbn; [by intros [= <-]| |by intros ?%Hlater].
    intros [= <-]. by eexists _, raw, out, err.
Qed.

Lemma declaredVolumeMounts_names mounts : forall idx,
  Forall (fun volumeMount => VolumeMount.Name volumeMount = "devpod")
    (declaredVolumeMounts idx mounts)
  /\ map VolumeMount.MountPath (declaredVolumeMounts idx mounts) =
       map Target (List.filter supported mounts).
Proof.
  induction mounts as [|mount rest IH]; intros idx; cbn; [by split|].
  destruct (IH (idx + 1)%Z) as [Hnames Hpaths].
  destruct (supported mount); cbn; [|done].
  split; [by constructor|by rewrite Hpaths].
Qed.

(** X10: a submitted pod is whole: it has the one volume [devpod] backed
    by the claim and the one container [devpod] running the image; every
    volume mount of the container names that volume, and the mount paths are
    the target of the workspace, then the targets of the bind and volume
    mounts in declared order. *)
Theorem submitted_pod_is_whole (k : kubernetesDriver) (id : string)
    (parsedConfig : DevContainerConfig) (mergedConfig : MergedDevContainerConfig)
    (imageName workspaceMount : string) (imageDetails : ImageDetails)
    (initialize : bool) (w : W) (i : nat) (c : Call) :
  remote_calls (events (runContainer lib cl k id parsedConfig mergedConfig imageName
                          workspaceMount imageDetails initialize) w) !! i = Some c ->
  isPodSubmission c = true ->
  exists pod raw out err main volume,
    c = CRunCommand ["create"; "-f"; "-"] (Some raw) out err
    /\ marshalled lib pod raw
    /\ Pod.Kind pod = "Pod" /\ Pod.APIVersion pod = "v1"
    /\ Pod.Labels pod = DevPodLabels
    /\ PodSpec.RestartPolicy (Pod.Spec pod) = "Never"
    /\ PodSpec.Volumes (Pod.Spec pod) = [volume]
    /\ PodSpec.Containers (Pod.Spec pod) = [main]
    /\ Container.Name main = "devpod"
    /\ Container.Image main = imageName
    /\ Forall (fun volumeMount => VolumeMount.Name volumeMount = Volume.Name volume)
         (Container.VolumeMounts main)
    /\ map VolumeMount.MountPath (Container.VolumeMounts main) =
         Target (ParseMount lib workspaceMount)
         :: map Target (List.filter supported (Mounts mergedConfig)).
Proof.
  unfold events. intros Hc%list_elem_of_lookup_2 Hsub.
  destruct (runContainer _ _ _ _ _ _ _ _ _ _ _) as [[r w'] es] eqn:Hrun.
  apply runContainer_calls in Hrun. eapply Forall_forall in Hrun; [|done].
  destruct (containerCall_submission _ _ _ _ _ _ _ _ _ Hrun Hsub)
    as (raw & out & err & -> & Hraw).
  destruct (declaredVolumeMounts_names (Mounts mergedConfig) 0%Z) as [Hnames Hpaths].
  eexists _, raw, out, err, _, _. do 10 (split; [done|]).
  cbn. split; [by constructor|by rewrite Hpaths].
Qed.


(** ** The environment of the container *)

(** X11: when the iteration over [ContainerEnv] visits each entry once,
    the environment of the submitted container is the configured one: a
    variable is set to a value exactly when the configuration maps it to that
    value, no name comes twice and nothing is added. *)
Theorem environment_is_the_configured_one (k : kubernetesDriver) (id : string)
    (parsedConfig : DevContainerConfig) (mergedConfig : MergedDevContainerConfig)
    (imageName workspaceMount : string) (imageDetails : ImageDetails)
    (initialize : bool) (w : W) (i : nat) (c : Call) :
  rangeEnv lib (ContainerEnv mergedConfig) ≡ₚ map_to_list (ContainerEnv mergedConfig) ->
  remote_calls (events (runContainer lib cl k id parsedConfig mergedConfig imageName
                          workspaceMount imageDetails initialize) w) !! i = Some c ->
  isPodSubmission c = true ->
  exists pod raw out err main,
    c = CRunCommand ["create"; "-f"; "-"] (Some raw) out err
    /\ marshalled lib pod raw
    /\ PodSpec.Containers (Pod.Spec pod) = [main]
    /\ (forall name value,
          {| EnvVar.Name := name; EnvVar.Value := value |} ∈ Container.Env main
          <-> ContainerEnv mergedConfig !! name = Some value)
    /\ NoDup (map EnvVar.Name (Container.Env main))
    /\ length (Container.Env main) = size (ContainerEnv mergedConfig).
Proof.
  unfold events. intros Hrange Hc%list_elem_of_lookup_2 Hsub.
  destruct (runContainer _ _ _ _ _ _ _ _ _ _ _) as [[r w'] es] eqn:Hrun.
  apply runContainer_calls in Hrun. eapply Forall_forall in Hrun; [|done].
  destruct (containerCall_submission _ _ _ _ _ _ _ _ _ Hrun Hsub)
    as (raw & out & err & -> & Hraw).
  eexists _, raw, out, err, _. do 3 (split; [done|]). cbn.
  set (entries := rangeEnv lib (ContainerEnv mergedConfig)) in *.
  split; [|split].
  - intros name value. rewrite <- elem_of_map_to_list, <- Hrange.
    change (map ?f entries) with (f <$> entries). rewrite list_elem_of_fmap. split.
    + by intros ([name' value'] & [= -> ->] & ?).
    + intros ?. by exists (name, value).
  - change (map EnvVar.Name (map ?f entries)) with (EnvVar.Name <$> (f <$> entries)).
    rewrite <- list_fmap_compose. change (NoDup (fst <$> entries)).
    rewrite Hrange. apply NoDup_fst_map_to_list.
  - rewrite length_map, Hrange. apply length_map_to_list.
Qed.

(** ** Sub-paths that do not collide *)






(** ** Trailing separators *)

Lemma append_cons (a : ascii) (s t : string) : String a s +:+ t = String a (s +:+ t).
Proof. reflexivity. Qed.

Lemma TrimRight_snoc (s cutset : string) (c : ascii) :
  TrimRight (s +:+ String c EmptyString) cutset =
  if inCutset cutset c then TrimRight s cutset else s +:+ String c EmptyString.
Proof.
  induction s as [|a s IH].
  - change (EmptyString +:+ String c EmptyString) with (String c EmptyString).
    cbn. by destruct (inCutset cutset c).
  - rewrite append_cons. cbn [TrimRight]. rewrite IH.
    destruct (inCutset cutset c) eqn:Hc; [done|].
    destruct s as [|b s];
      [change (EmptyString +:+ String c EmptyString) with (String c EmptyString)
      |rewrite append_cons]; done.
Qed.

Lemma append_slashes (s : string) (n : nat) :
  s +:+ slashes (S n) = (s +:+ String "/" EmptyString) +:+ slashes n.
Proof. induction s as [|a s IH]; [done|]. rewrite !append_cons. by rewrite IH. Qed.

Lemma TrimRight_slashes (n : nat) : forall s : string,
  TrimRight (s +:+ slashes n) "/" = TrimRight s "/".
Proof.
  induction n as [|n IH]; intros s.
  - cbn [slashes]. replace (s +:+ "") with s; [done|].
    induction s as [|a s IHs]; [done|]. by rewrite append_cons, <- IHs.
  - rewrite append_slashes, IH. by rewrite TrimRight_snoc.
Qed.

(** X13: the copies do not depend on trailing separators: mounts given
    with any number of [/] at the end of their source and target are copied
    by the same commands, with the same result, as the mounts without them.
    A source or target made of separators only is copied from [/.] or to the
    empty remote path. *)
Theorem copies_ignore_trailing_slashes (id : string) (parsedConfig : DevContainerConfig)
    (copyFromLocal : list Mount) (n n' : nat) (w : W)
    (type out : string) (err : option error) :
  let slashed :=
    map (fun mount => {| Type_ := Type_ mount;
                         Source := Source mount +:+ slashes n;
                         Target := Target mount +:+ slashes n' |}) copyFromLocal in
  result (copyLoop lib cl id parsedConfig slashed) w
    = result (copyLoop lib cl id parsedConfig copyFromLocal) w
  /\ remote_calls (events (copyLoop lib cl id parsedConfig slashed) w)
     = remote_calls (events (copyLoop lib cl id parsedConfig copyFromLocal) w)
  /\ copyCall lib id parsedConfig
       {| Type_ := type; Source := slashes n; Target := slashes n' |} out err
     = CRunCommandWithDir (filepath_Dir lib (Origin parsedConfig))
         ["cp"; "-c"; "devpod"; "/."; id +:+ ":"] None out err.
Proof.
  intros slashed. unfold slashed, result, events. clear slashed. split; [|split].
  - revert w. induction copyFromLocal as [|copyMount rest IH]; intros w; [done|].
    cbn [map]. rewrite !copyLoop_cons. cbn [Source Target].
    rewrite !TrimRight_slashes.
    destruct (k_runCommandWithDir _ _ _ _ _) as [[out' [e|]] w1]; [done|].
    specialize (IH w1).
    destruct (copyLoop lib cl id parsedConfig (map _ rest) w1) as [[r1 w1'] es1].
    by destruct (copyLoop lib cl id parsedConfig rest w1) as [[r2 w2'] es2].
  - revert w. induction copyFromLocal as [|copyMount rest IH]; intros w; [done|].
    cbn [map]. rewrite !copyLoop_cons. cbn [Source Target].
    rewrite !TrimRight_slashes.
    destruct (k_runCommandWithDir _ _ _ _ _) as [[out' [e|]] w1].
    + cbn. unfold copyCall. cbn [Source Target]. by rewrite !TrimRight_slashes.
    + specialize (IH w1).
      destruct (copyLoop lib cl id parsedConfig (map _ rest) w1) as [[r1 w1'] es1].
      destruct (copyLoop lib cl id parsedConfig rest w1) as [[r2 w2'] es2].
      cbn in IH |- *. rewrite IH. unfold copyCall. cbn [Source Target].
      by rewrite !TrimRight_slashes.
  - unfold copyCall. cbn [Source Target].
    pose proof (TrimRight_slashes n EmptyString) as Hsource.
    pose proof (TrimRight_slashes n' EmptyString) as Htarget.
    change (EmptyString +:+ slashes n) with (slashes n) in Hsource.
    change (EmptyString +:+ slashes n') with (slashes n') in Htarget.
    rewrite Hsource, Htarget. reflexivity.
Qed.

(** ** Failures and the volume in [StartDevContainer] and [RunDevContainer] *)

(** X14: in [StartDevContainer] too the first remote call that fails is
    the last event, and its error is returned with the context of the
    operation that failed. *)
Theorem Start_first_failure_ends_the_run (k : kubernetesDriver) (id : string)
    (labels : list string) (w : W) (pre post : list Event) (c : Call) (e : error) :
  events (StartDevContainer lib cl k id labels) w = pre ++ Remote c :: post ->
  callError c = Some e ->
  post = [] /\ result (StartDevContainer lib cl k id labels) w = Some (failureOf c e).
Proof.
  unfold events, result, StartDevContainer, bind, getDevContainerPvc.
  destruct (k_getDevContainerPvc cl id w) as [[[pvc info] [e0|]] w1];
    cbv beta iota zeta.
  { cbn. intros (_ & -> & ->)%single_call Herr. by simplify_eq/=. }
  destruct info as [info|].
  2:{ cbn. by intros (_ & -> & ->)%single_call Herr. }
  destruct (runContainer _ _ _ _ _ _ _ _ _ _ _) as [[r w'] es] eqn:Hrun.
  cbn [fst snd]. intros Hes Herr.
  apply (call_after_prefix (fun c => callError c = None)) in Hes
    as (pre' & -> & Hes); [|by repeat constructor|congruence].
  by eapply runContainer_failure.
Qed.

(** X15: [RunDevContainer] creates the volume only right after a lookup
    that failed to find it and reported no error, and then with the
    identity and the configuration it was called with. *)
Theorem volume_is_created_only_when_missing (k : kubernetesDriver)
    (parsedConfig : DevContainerConfig) (mergedConfig : MergedDevContainerConfig)
    (imageName workspaceMount : string) (labels : list string)
    (ide : string) (ideOptions : gmap string config2.OptionValue)
    (imageDetails : ImageDetails) (w : W) (i : nat) (c : Call) :
  let calls :=
    remote_calls
      (events (RunDevContainer lib cl k parsedConfig mergedConfig imageName
                 workspaceMount labels ide ideOptions imageDetails) w) in
  calls !! i = Some c ->
  isVolumeCreation c = true ->
  exists before after info err,
    calls = before
            ++ [CGetDevContainerPvc (getID lib k labels).1 None info None; c]
            ++ after
    /\ c = CCreatePersistentVolumeClaim (getID lib k labels).1 parsedConfig
             mergedConfig imageName workspaceMount labels imageDetails err
    /\ Forall (fun c' => isVolumeCreation c' = false) (before ++ after).
Proof.
  intros calls. unfold calls, events. clear calls.
  destruct (RunDevContainer _ _ _ _ _ _ _ _ _ _ _ _) as [[r w'] es] eqn:Hrun.
  cbn [snd]. intros Hc%list_elem_of_lookup_2 Hcreate.
  assert (Hns : forall ns,
    Forall (fun c' => isVolumeCreation c' = false) (remote_calls (namespaceEvents k ns))).
  { intros ns. apply Forall_forall. by intros c' (? & ? & ->)%namespaceEvents_calls. }
  assert (Hrc : forall init w1 r w' es,
    runContainer lib cl k (getID lib k labels).1 parsedConfig mergedConfig imageName
      workspaceMount imageDetails init w1 = (r, w', es) ->
    Forall (fun c' => isVolumeCreation c' = false) (remote_calls es)).
  { intros init w1 r1 w1' es1 Hes%runContainer_calls.
    eapply Forall_impl; [done|]. by intros c' (_ & ? & _)%containerCall_kind. }
  assert (Hnot : forall l, Forall (fun c' => isVolumeCreation c' = false) l -> c ∈ l -> False).
  { intros l Hl Hin. eapply Forall_forall in Hl; [|done]. congruence. }
  apply RunDevContainer_run in Hrun.
  destruct Hrun as [e He|ns pvc info e w1 _ Hstep|ns info e w1 _ Hstep
                   |ns info w1 r w' es _ Hstep Hrun|ns pvc info w1 r w' es _ Hstep Hrun];
    revert Hc; rewrite ?remote_calls_app; cbn [remote_calls omap list_omap];
    rewrite ?elem_of_app, ?elem_of_cons, ?elem_of_nil; intros Hc;
    repeat match goal with Hor : _ \/ _ |- _ => destruct Hor as [Hor|Hor] end;
    try done; try (by destruct (Hnot _ (Hns _) Hc)); try (by subst c);
    try (by destruct (Hnot _ (Hrc _ _ _ _ _ Hrun) Hc)).
  - subst c. eexists _, [], info, (Some e). split; [done|]. split; [done|].
    by rewrite app_nil_r.
  - subst c. eexists _, (remote_calls es), info, None. split; [done|]. split; [done|].
    apply Forall_app. split; [done|by eapply Hrc].
Qed.

End Properties.

(** * The driver on the simulated cluster *)

Section Scenarios.

Import Sim.

(** The sub-paths of the specification's examples. *)
Example subPath_named_volume :
  VolumeMount.SubPath (getVolumeMount 7%Z volumeCache) = "devpod/cache".
Proof. reflexivity. Qed.

Example subPath_unnamed_slot :
  VolumeMount.SubPath (getVolumeMount 2%Z tmpfsScratch) = "devpod/2".
Proof. reflexivity. Qed.

(** A first run seeds the workspace and the bind mounts, in order; the
    second run of the same workspace copies nothing. *)
Example first_run_then_restart :
  List.filter isCopy (remote_calls (events (run workspace) emptyWorld)) =
    [copyCall lib "devpod-ws1" parsed (ParseMount lib workspace) "" None;
     copyCall lib "devpod-ws1" parsed bindData "" None;
     copyCall lib "devpod-ws1" parsed bindLogs "" None]
  /\ List.filter isCopy
       (remote_calls (events (run workspace) (run workspace emptyWorld).1.2)) = [].
Proof. split; vm_compute; reflexivity. Qed.

End Scenarios.

(** * The theorems at work on the simulated cluster *)

Section Witnesses.

Import Sim.

(** C1, as claimed, fails: with an empty workspace mount and no volume
    yet, [RunDevContainer] looks the volume up and creates it before it
    returns the configuration error. *)
Lemma Run_validates_after_volume_creation :
  Target (ParseMount lib noTarget) = ""
  /\ result (run noTarget) emptyWorld = Some (New "workspace mount target is empty")
  /\ map isVolumeLookup (remote_calls (events (run noTarget) emptyWorld)) = [true; false]
  /\ map isVolumeCreation (remote_calls (events (run noTarget) emptyWorld)) = [false; true]
  /\ remote_calls (events (run noTarget) emptyWorld) <> [].
Proof. repeat split; try (vm_compute; reflexivity). vm_compute. discriminate. Qed.

Lemma empty_target_is_rejected_witness :
  Target (ParseMount lib noTarget) = ""
  /\ container noTarget true emptyWorld =
       (Some (New "workspace mount target is empty"), emptyWorld, [])
  /\ result (run noTarget) emptyWorld = Some (New "workspace mount target is empty").
Proof.
  destruct (empty_target_is_rejected lib cluster driver "devpod-ws1" parsed
              (merged mounts) "img" noTarget ["ws1"] "vscode" ∅ image true emptyWorld)
    as (Hcontainer & _ & _ & Hrun); [reflexivity|].
  split; [reflexivity|]. split; [exact Hcontainer|].
  apply Hrun; [reflexivity|].
  vm_compute. repeat (constructor; [intros _; reflexivity|]). constructor.
Defined.

Lemma Run_existing_volume_witness :
  remote_calls (events (run workspace) initialized) !! 0 =
    Some (CGetDevContainerPvc "devpod-ws1"
            (Some {| PersistentVolumeClaim.Name := "devpod-ws1";
                     PersistentVolumeClaim.Annotations := ∅ |})
            (volumes initialized !! "devpod-ws1") None)
  /\ Forall (fun c => isVolumeCreation c = false /\ isCopy c = false)
       (remote_calls (events (run workspace) initialized)).
Proof.
  split; [reflexivity|].
  apply (Run_existing_volume lib cluster driver parsed (merged mounts) "img"
           workspace ["ws1"] "vscode" ∅ image initialized 0 "devpod-ws1"
           {| PersistentVolumeClaim.Name := "devpod-ws1";
              PersistentVolumeClaim.Annotations := ∅ |}
           (volumes initialized !! "devpod-ws1")).
  reflexivity.
Defined.

Lemma Start_missing_volume_witness :
  k_getDevContainerPvc cluster "devpod-ws1" emptyWorld = (None, None, None, emptyWorld)
  /\ StartDevContainer lib cluster driver "devpod-ws1" ["ws1"] emptyWorld =
       (Some (New "persistent volume 'devpod-ws1' not found"), emptyWorld,
        [Remote (CGetDevContainerPvc "devpod-ws1" None None None)]).
Proof.
  split; [reflexivity|].
  apply (Start_missing_volume lib cluster driver "devpod-ws1" ["ws1"]
           emptyWorld emptyWorld None).
  reflexivity.
Defined.



Lemma pod_runs_as_root_witness :
  remote_calls (events (container workspace true) emptyWorld) !! 0 =
    Some (CRunCommand ["create"; "-f"; "-"] (Some "{Pod devpod-ws1}") "" None)
  /\ exists pod raw out err main securityContext,
       CRunCommand ["create"; "-f"; "-"] (Some "{Pod devpod-ws1}") "" None =
         CRunCommand ["create"; "-f"; "-"] (Some raw) out err
       /\ marshalled lib pod raw
       /\ PodSpec.Containers (Pod.Spec pod) = [main]
       /\ Container.SecurityContext main = Some securityContext
       /\ SecurityContext.RunAsUser securityContext = Some 0%Z
       /\ SecurityContext.RunAsGroup securityContext = Some 0%Z
       /\ SecurityContext.RunAsNonRoot securityContext = Some false
       /\ SecurityContext.Privileged securityContext = Some false
       /\ SecurityContext.Capabilities securityContext =
            Some {| Capabilities.Add := ["SYS_PTRACE"]; Capabilities.Drop := [] |}.
Proof.
  split; [reflexivity|].
  apply (pod_runs_as_root lib cluster driver "devpod-ws1" parsed (merged mounts)
           "img" workspace image true emptyWorld 0); reflexivity.
Defined.

Lemma unsupported_mount_is_skipped_witness :
  Mounts (merged mounts) = [bindData] ++ tmpfsScratch :: [volumeCache; bindLogs]
  /\ supported tmpfsScratch = false
  /\ unsupportedWarning lib tmpfsScratch ∈ events (container workspace true) emptyWorld
  /\ result (container workspace true) emptyWorld = None.
Proof.
  destruct (unsupported_mount_is_skipped lib cluster driver "devpod-ws1" parsed
              (merged mounts) "img" workspace image true emptyWorld
              [bindData] [volumeCache; bindLogs] tmpfsScratch)
    as (_ & _ & Hwarned & Hdone); [reflexivity..|].
  assert (Hconf : configured lib driver (merged mounts) "img" workspace true).
  { split; [vm_compute; discriminate|reflexivity]. }
  split; [reflexivity|]. split; [reflexivity|]. split; [by apply Hwarned|].
  apply Hdone; [done|intros Hselector; by destruct Hselector|reflexivity|reflexivity].
Defined.

Lemma copy_failure_aborts_witness :
  events (run workspace) broken =
    take 10 (events (run workspace) broken)
    ++ Remote (copyCall lib "devpod-ws1" parsed bindData
                 "read-only file system" (Some (New "exit status 1")))
    :: []
  /\ result (run workspace) broken =
       Some (Wrap (New "exit status 1") "copy to devcontainer").
Proof.
  split; [vm_compute; reflexivity|].
  apply (copy_failure_aborts lib cluster driver parsed (merged mounts) "img"
           workspace ["ws1"] "vscode" ∅ image broken
           (take 10 (events (run workspace) broken)) []
           (copyCall lib "devpod-ws1" parsed bindData
              "read-only file system" (Some (New "exit status 1")))
           (New "exit status 1"));
    [vm_compute; reflexivity|reflexivity|reflexivity].
Defined.

(** C9, as claimed, fails: [StartDevContainer] names the pod by the [id]
    of its caller, whatever identity the labels give. *)
Lemma Start_names_the_pod_after_its_caller :
  (getID lib driver ["ws1"]).1 = "devpod-ws1"
  /\ remote_calls (events (StartDevContainer lib cluster driver "some-other-id" ["ws1"])
                     renamed) !! 1
     = Some (CRunCommand ["create"; "-f"; "-"] (Some "{Pod some-other-id}") "" None)
  /\ marshalled lib
       (builtPod lib driver "some-other-id" (merged mounts) "img" workspace image false)
       "{Pod some-other-id}"
  /\ Pod.Name
       (builtPod lib driver "some-other-id" (merged mounts) "img" workspace image false)
     = "some-other-id"
  /\ ~ exists pod raw out err,
         CRunCommand ["create"; "-f"; "-"] (Some "{Pod some-other-id}") "" None =
           CRunCommand ["create"; "-f"; "-"] (Some raw) out err
         /\ marshalled lib pod raw
         /\ Pod.Name pod = (getID lib driver ["ws1"]).1.
Proof.
  repeat split; try reflexivity.
  intros (pod & raw & out & err & [= <- _ _] & Hraw & Hname).
  unfold marshalled in Hraw. cbn [json_Marshal lib] in Hraw.
  rewrite Hname in Hraw. vm_compute in Hraw. discriminate.
Qed.

Lemma pod_and_volume_share_identity_witness :
  remote_calls (events (run workspace) emptyWorld) !! 2 =
    Some (CRunCommand ["create"; "-f"; "-"] (Some "{Pod devpod-ws1}") "" None)
  /\ (exists pod raw out err,
        CRunCommand ["create"; "-f"; "-"] (Some "{Pod devpod-ws1}") "" None =
          CRunCommand ["create"; "-f"; "-"] (Some raw) out err
        /\ marshalled lib pod raw
        /\ Pod.Name pod = "devpod-ws1"
        /\ PodSpec.Volumes (Pod.Spec pod) =
             [ {| Volume.Name := "devpod";
                  Volume.PersistentVolumeClaim :=
                    Some {| PersistentVolumeClaimVolumeSource.ClaimName :=
                              "devpod-ws1" |} |} ])
  /\ remote_calls (events (StartDevContainer lib cluster driver "some-other-id" ["ws1"])
                     renamed) !! 1 =
       Some (CRunCommand ["create"; "-f"; "-"] (Some "{Pod some-other-id}") "" None)
  /\ (exists pod raw out err,
        CRunCommand ["create"; "-f"; "-"] (Some "{Pod some-other-id}") "" None =
          CRunCommand ["create"; "-f"; "-"] (Some raw) out err
        /\ marshalled lib pod raw
        /\ Pod.Name pod = "some-other-id"
        /\ PodSpec.Volumes (Pod.Spec pod) =
             [ {| Volume.Name := "devpod";
                  Volume.PersistentVolumeClaim :=
                    Some {| PersistentVolumeClaimVolumeSource.ClaimName :=
                              "some-other-id" |} |} ]).
Proof.
  destruct (pod_and_volume_share_identity lib cluster driver "devpod-ws1" parsed
              (merged mounts) "img" workspace ["ws1"] ["ws1"] "vscode" ∅ image true
              emptyWorld 2
              (CRunCommand ["create"; "-f"; "-"] (Some "{Pod devpod-ws1}") "" None))
    as (_ & Hrun & _).
  destruct (pod_and_volume_share_identity lib cluster driver "some-other-id" parsed
              (merged mounts) "img" workspace ["ws1"] ["ws1"] "vscode" ∅ image false
              renamed 1
              (CRunCommand ["create"; "-f"; "-"] (Some "{Pod some-other-id}") "" None))
    as (_ & _ & Hstart).
  split; [reflexivity|]. split; [apply Hrun; reflexivity|].
  split; [reflexivity|]. apply Hstart; reflexivity.
Defined.


End Witnesses.

(** * The further properties at work *)

Section FurtherWitnesses.

Import Sim.

Lemma first_failure_ends_the_run_witness :
  events Outage.run tt =
    take 3 (events Outage.run tt)
    ++ Remote (CGetDevContainerPvc "devpod-ws1" None None (Some Outage.refused)) :: []
  /\ result Outage.run tt = Some Outage.refused.
Proof.
  split; [reflexivity|].
  apply (first_failure_ends_the_run lib Outage.cluster Outage.driver parsed
           (merged mounts) "img" workspace ["ws1"] "vscode" ∅ image tt
           (take 3 (events Outage.run tt)) []
           (CGetDevContainerPvc "devpod-ws1" None None (Some Outage.refused))
           Outage.refused); reflexivity.
Defined.

Lemma success_means_pod_is_up_witness :
  result (run workspace) emptyWorld = None
  /\ Forall (fun c => isNamespaceCreation c = true \/ callError c = None)
       (remote_calls (events (run workspace) emptyWorld)).
Proof.
  split; [reflexivity|].
  apply (success_means_pod_is_up lib cluster driver parsed (merged mounts) "img"
           workspace ["ws1"] "vscode" ∅ image emptyWorld).
  reflexivity.
Defined.

Lemma every_error_has_a_cause_witness :
  result (run workspace) broken
    = Some (Wrap (New "exit status 1") "copy to devcontainer")
  /\ ((getID lib driver ["ws1"]).2
       = Some (Wrap (New "exit status 1") "copy to devcontainer")
     \/ (Target (ParseMount lib workspace) = ""
         /\ Wrap (New "exit status 1") "copy to devcontainer"
            = New "workspace mount target is empty")
     \/ (exists e, (getInitContainer lib driver (merged mounts) "img").2 = Some e
                   /\ Wrap (New "exit status 1") "copy to devcontainer"
                      = Wrap e "build init container")
     \/ (exists e, NodeSelector (config driver) <> ""
                   /\ (parseLabels lib (NodeSelector (config driver))).2 = Some e
                   /\ Wrap (New "exit status 1") "copy to devcontainer"
                      = Wrap e "parsing node selector")
     \/ (exists initialize,
           (json_Marshal lib
              (builtPod lib driver (getID lib driver ["ws1"]).1 (merged mounts) "img"
                 workspace image initialize)).2
           = Some (Wrap (New "exit status 1") "copy to devcontainer"))
     \/ (exists c e,
           last (remote_calls (events (run workspace) broken)) = Some c
           /\ callError c = Some e /\ isNamespaceCreation c = false
           /\ Wrap (New "exit status 1") "copy to devcontainer" = failureOf c e)).
Proof.
  split; [reflexivity|].
  apply (every_error_has_a_cause lib cluster driver parsed (merged mounts) "img"
           workspace ["ws1"] "vscode" ∅ image broken).
  reflexivity.
Defined.

Lemma namespace_failure_is_swallowed_witness :
  (getID lib Outage.driver ["ws1"]).2 = None
  /\ remote_calls (events Outage.run tt) !! 0
       = Some (CRunCommand ["create"; "ns"; "dev"] None
                 "Unable to connect to the server" (Some Outage.refused))
  /\ exists pvc info err, remote_calls (events Outage.run tt) !! 1
       = Some (CGetDevContainerPvc "devpod-ws1" pvc info err).
Proof.
  split; [reflexivity|]. split; [reflexivity|].
  destruct (namespace_failure_is_swallowed lib Outage.cluster Outage.driver parsed
              (merged mounts) "img" workspace ["ws1"] "vscode" ∅ image tt)
    as (pvc & info & err & Hcreated & _); [reflexivity|].
  destruct Hcreated as (out & nsErr & _ & Hlookup & _);
    [split; [discriminate|reflexivity]|].
  by exists pvc, info, err.
Defined.

Lemma Start_is_the_restart_of_Run_witness :
  getID lib driver ["ws1"] = ("devpod-ws1", None)
  /\ StartDevContainer lib cluster driver "devpod-ws1" [] initialized
     = run workspace initialized.
Proof.
  split; [reflexivity|].
  apply (Start_is_the_restart_of_Run lib cluster driver "devpod-ws1" parsed
           (merged mounts) "img" workspace ["ws1"] [] ["ws1"] "vscode" ∅ image
           initialized initialized
           {| PersistentVolumeClaim.Name := "devpod-ws1";
              PersistentVolumeClaim.Annotations := ∅ |});
    [reflexivity|by intros [Hnamespace _]|reflexivity].
Defined.

Lemma Start_builds_the_pod_from_the_snapshot_witness :
  remote_calls (events (StartDevContainer lib cluster driver "devpod-ws1" []) initialized)
    !! 1 = Some (CRunCommand ["create"; "-f"; "-"] (Some "{Pod devpod-ws1}") "" None)
  /\ exists pvc info pod raw out err main,
       remote_calls
         (events (StartDevContainer lib cluster driver "devpod-ws1" []) initialized) !! 0
         = Some (CGetDevContainerPvc "devpod-ws1" pvc (Some info) None)
       /\ CRunCommand ["create"; "-f"; "-"] (Some "{Pod devpod-ws1}") "" None
          = CRunCommand ["create"; "-f"; "-"] (Some raw) out err
       /\ marshalled lib pod raw
       /\ Pod.Name pod = "devpod-ws1"
       /\ PodSpec.InitContainers (Pod.Spec pod) = []
       /\ PodSpec.Containers (Pod.Spec pod) = [main]
       /\ Container.Image main = ImageName info
       /\ Container.VolumeMounts main =
            getVolumeMount 0%Z (ParseMount lib (WorkspaceMount info))
            :: declaredVolumeMounts 0%Z (Mounts (MergedConfig info)).
Proof.
  split; [reflexivity|].
  apply (Start_builds_the_pod_from_the_snapshot lib cluster driver "devpod-ws1" []
           initialized 1); reflexivity.
Defined.

Lemma init_containers_only_on_first_run_witness :
  remote_calls (events (run workspace) emptyWorld) !! 2
    = Some (CRunCommand ["create"; "-f"; "-"] (Some "{Pod devpod-ws1}") "" None)
  /\ exists pod raw out err,
       CRunCommand ["create"; "-f"; "-"] (Some "{Pod devpod-ws1}") "" None
         = CRunCommand ["create"; "-f"; "-"] (Some raw) out err
       /\ marshalled lib pod raw
       /\ PodSpec.InitContainers (Pod.Spec pod) =
            if existsb isVolumeCreation (remote_calls (events (run workspace) emptyWorld))
            then (getInitContainer lib driver (merged mounts) "img").1
            else [].
Proof.
  split; [reflexivity|].
  apply (init_containers_only_on_first_run lib cluster driver parsed (merged mounts)
           "img" workspace ["ws1"] "vscode" ∅ image emptyWorld 2); reflexivity.
Defined.

Lemma service_account_comes_before_the_pod_witness :
  remote_calls (events (Outage.container true) emptyWorld) !! 1
    = Some (CRunCommand ["create"; "-f"; "-"] (Some "{Pod devpod-ws1}") "" None)
  /\ exists pod raw out err,
       CRunCommand ["create"; "-f"; "-"] (Some "{Pod devpod-ws1}") "" None
         = CRunCommand ["create"; "-f"; "-"] (Some raw) out err
       /\ marshalled lib pod raw
       /\ PodSpec.ServiceAccountName (Pod.Spec pod) = "builder"
       /\ 1 = 1
       /\ remote_calls (events (Outage.container true) emptyWorld) !! 0
          = Some (CCreateServiceAccount "devpod-ws1" "builder" None).
Proof.
  split; [reflexivity|].
  apply (service_account_comes_before_the_pod lib cluster Outage.driver "devpod-ws1"
           parsed (merged mounts) "img" workspace image true emptyWorld 1);
    reflexivity.
Defined.

Lemma submitted_pod_is_whole_witness :
  remote_calls (events (container workspace true) emptyWorld) !! 0
    = Some (CRunCommand ["create"; "-f"; "-"] (Some "{Pod devpod-ws1}") "" None)
  /\ exists pod raw out err main volume,
       CRunCommand ["create"; "-f"; "-"] (Some "{Pod devpod-ws1}") "" None
         = CRunCommand ["create"; "-f"; "-"] (Some raw) out err
       /\ marshalled lib pod raw
       /\ Pod.Kind pod = "Pod" /\ Pod.APIVersion pod = "v1"
       /\ Pod.Labels pod = DevPodLabels
       /\ PodSpec.RestartPolicy (Pod.Spec pod) = "Never"
       /\ PodSpec.Volumes (Pod.Spec pod) = [volume]
       /\ PodSpec.Containers (Pod.Spec pod) = [main]
       /\ Container.Name main = "devpod"
       /\ Container.Image main = "img"
       /\ Forall (fun volumeMount => VolumeMount.Name volumeMount = Volume.Name volume)
            (Container.VolumeMounts main)
       /\ map VolumeMount.MountPath (Container.VolumeMounts main) =
            ["/ws"; "/mnt/data"; "/cache"; "/var/log/"].
Proof.
  split; [reflexivity|].
  apply (submitted_pod_is_whole lib cluster driver "devpod-ws1" parsed (merged mounts)
           "img" workspace image true emptyWorld 0); reflexivity.
Defined.

Lemma environment_is_the_configured_one_witness :
  rangeEnv lib (ContainerEnv (merged mounts)) ≡ₚ map_to_list (ContainerEnv (merged mounts))
  /\ exists pod raw out err main,
       CRunCommand ["create"; "-f"; "-"] (Some "{Pod devpod-ws1}") "" None
         = CRunCommand ["create"; "-f"; "-"] (Some raw) out err
       /\ marshalled lib pod raw
       /\ PodSpec.Containers (Pod.Spec pod) = [main]
       /\ (forall name value,
             {| EnvVar.Name := name; EnvVar.Value := value |} ∈ Container.Env main
             <-> ContainerEnv (merged mounts) !! name = Some value)
       /\ NoDup (map EnvVar.Name (Container.Env main))
       /\ length (Container.Env main) = size (ContainerEnv (merged mounts)).
Proof.
  split; [reflexivity|].
  apply (environment_is_the_configured_one lib cluster driver "devpod-ws1" parsed
           (merged mounts) "img" workspace image true emptyWorld 0); reflexivity.
Defined.


Lemma Start_first_failure_ends_the_run_witness :
  events (StartDevContainer lib Outage.cluster driver "devpod-ws1" []) tt
    = [] ++ Remote (CGetDevContainerPvc "devpod-ws1" None None (Some Outage.refused)) :: []
  /\ result (StartDevContainer lib Outage.cluster driver "devpod-ws1" []) tt
     = Some Outage.refused.
Proof.
  split; [reflexivity|].
  apply (Start_first_failure_ends_the_run lib Outage.cluster driver "devpod-ws1" [] tt
           [] [] (CGetDevContainerPvc "devpod-ws1" None None (Some Outage.refused))
           Outage.refused); reflexivity.
Defined.

Lemma volume_is_created_only_when_missing_witness :
  map isVolumeCreation (remote_calls (events (run workspace) emptyWorld)) !! 1 = Some true
  /\ exists c before after info err,
       remote_calls (events (run workspace) emptyWorld) !! 1 = Some c
       /\ remote_calls (events (run workspace) emptyWorld)
          = before ++ [CGetDevContainerPvc "devpod-ws1" None info None; c] ++ after
       /\ c = CCreatePersistentVolumeClaim "devpod-ws1" parsed (merged mounts) "img"
                workspace ["ws1"] image err.
Proof.
  split; [reflexivity|].
  destruct (remote_calls (events (run workspace) emptyWorld) !! 1) as [c|] eqn:Hc;
    [|vm_compute in Hc; discriminate].
  destruct (volume_is_created_only_when_missing lib cluster driver parsed
              (merged mounts) "img" workspace ["ws1"] "vscode" ∅ image emptyWorld 1 c)
    as (before & after & info & err & Hcalls & Hcreate & _);
    [exact Hc|vm_compute in Hc; by injection Hc as <-|].
  by exists c, before, after, info, err.
Defined.

End FurtherWitnesses.
